(** * Shallow embedding of [resource_repository_apt_proxy.go]

    The Terraform resource [nexus_repository_apt_proxy]: the schema
    surface, the marshalling function [getRepositoryAptProxyFromResourceData]
    and the CRUD handlers delegating to the go-nexus-client library.

    Go's dynamic values ([interface{}]) are the inductive [gval]; a type
    assertion [v.(T)] returns [Panic] when the dynamic type is not [T].
    The Terraform SDK stores the resource state by schema; the record
    [Config] holds that typed state and [rd_get] is [d.Get], which hands
    it out as [interface{}] values (a [TypeInt] as a Go [int], a
    [TypeList] of blocks as [[]interface{}] of [map[string]interface{}],
    or [nil] for a block without values, a [TypeSet] as a [*schema.Set]). *)

From Stdlib Require Import String List ZArith Bool Lia.
Import ListNotations.
Open Scope string_scope.
Open Scope list_scope.

(** ** Panics *)

Inductive result (A : Type) : Type :=
| Ret (a : A)
| Panic (msg : string).
Arguments Ret {A} a.
Arguments Panic {A} msg.

Definition bind_result {A B} (m : result A) (k : A -> result B) : result B :=
  match m with
  | Ret a => k a
  | Panic msg => Panic msg
  end.

Notation "'let*' x ':=' m 'in' k" := (bind_result m (fun x => k))
  (at level 200, x name, m at level 100, k at level 200).

(** ** Go dynamic values *)

Set Warnings "-register-all".

Inductive gval : Type :=
| GNil
| GBool (b : bool)
| GInt (z : Z)
| GIntPtr (p : option Z)
| GString (s : string)
| GList (l : list gval)
| GMap (m : list (string * gval))
| GSet (l : list gval).

Definition as_string (v : gval) : result string :=
  match v with GString s => Ret s | _ => Panic "interface conversion: not string" end.
Definition as_bool (v : gval) : result bool :=
  match v with GBool b => Ret b | _ => Panic "interface conversion: not bool" end.
Definition as_int (v : gval) : result Z :=
  match v with GInt z => Ret z | _ => Panic "interface conversion: not int" end.
Definition as_int_ptr (v : gval) : result (option Z) :=
  match v with GIntPtr p => Ret p | _ => Panic "interface conversion: not *int" end.
Definition as_list (v : gval) : result (list gval) :=
  match v with GList l => Ret l | _ => Panic "interface conversion: not []interface {}" end.
Definition as_map (v : gval) : result (list (string * gval)) :=
  match v with GMap m => Ret m | _ => Panic "interface conversion: not map[string]interface {}" end.
Definition as_set (v : gval) : result (list gval) :=
  match v with GSet l => Ret l | _ => Panic "interface conversion: not *schema.Set" end.

(** [l[i]] on a slice. *)
Definition slice_index (l : list gval) (i : nat) : result gval :=
  match nth_error l i with
  | Some v => Ret v
  | None => Panic "index out of range"
  end.

(** [m[k]] and [v, ok := m[k]] on a [map[string]interface{}]. *)
Fixpoint map_lookup (m : list (string * gval)) (k : string) : option gval :=
  match m with
  | [] => None
  | (k', v) :: m' => if String.eqb k k' then Some v else map_lookup m' k
  end.

Definition map_index (m : list (string * gval)) (k : string) : gval :=
  match map_lookup m k with Some v => v | None => GNil end.

Definition is_nil (v : gval) : bool :=
  match v with GNil => true | _ => false end.

(** ** go-nexus-client request structures (the fields this code uses) *)

Record nexus_RepositoryApt := { Distribution : string; Flat : bool }.
Record nexus_RepositoryCleanup := { PolicyNames : list string }.
Record nexus_RepositoryGroup := { MemberNames : list string }.
Record nexus_RepositoryHTTPClientAuthentication := {
  NTLMDomain : string; NTLMHost : string; AuthType : string;
  Username : string; Password : string }.
Record nexus_RepositoryHTTPClientConnection := {
  Retries : option Z; Timeout : option Z }.
Record nexus_RepositoryHTTPClient := {
  AutoBlock : bool; Blocked : bool;
  Authentication : option nexus_RepositoryHTTPClientAuthentication;
  Connection : option nexus_RepositoryHTTPClientConnection }.
Record nexus_RepositoryNegativeCache := { Enabled : bool; TTL : Z }.
Record nexus_RepositoryProxy := {
  ContentMaxAge : Z; MetadataMaxAge : Z; RemoteURL : string }.
Record nexus_RepositoryStorage := {
  BlobStoreName : string; StrictContentTypeValidation : bool;
  WritePolicy : option string }.

(** [nexus.Repository]; [Type] is a keyword, the field is [Type_]. *)
Record nexus_Repository := {
  Format : string;
  Name : string;
  Online : bool;
  Type_ : string;
  RepositoryApt : option nexus_RepositoryApt;
  RepositoryCleanup : option nexus_RepositoryCleanup;
  RepositoryGroup : option nexus_RepositoryGroup;
  RepositoryHTTPClient : option nexus_RepositoryHTTPClient;
  RepositoryNegativeCache : option nexus_RepositoryNegativeCache;
  RepositoryProxy : option nexus_RepositoryProxy;
  RepositoryStorage : option nexus_RepositoryStorage }.

Definition RepositoryTypeHosted : string := "hosted".

(** Field assignments [repo.F = v]. *)
Definition set_RepositoryApt r v := {|
  Format := Format r; Name := Name r; Online := Online r; Type_ := Type_ r;
  RepositoryApt := v; RepositoryCleanup := RepositoryCleanup r;
  RepositoryGroup := RepositoryGroup r; RepositoryHTTPClient := RepositoryHTTPClient r;
  RepositoryNegativeCache := RepositoryNegativeCache r;
  RepositoryProxy := RepositoryProxy r; RepositoryStorage := RepositoryStorage r |}.
Definition set_RepositoryCleanup r v := {|
  Format := Format r; Name := Name r; Online := Online r; Type_ := Type_ r;
  RepositoryApt := RepositoryApt r; RepositoryCleanup := v;
  RepositoryGroup := RepositoryGroup r; RepositoryHTTPClient := RepositoryHTTPClient r;
  RepositoryNegativeCache := RepositoryNegativeCache r;
  RepositoryProxy := RepositoryProxy r; RepositoryStorage := RepositoryStorage r |}.
Definition set_RepositoryGroup r v := {|
  Format := Format r; Name := Name r; Online := Online r; Type_ := Type_ r;
  RepositoryApt := RepositoryApt r; RepositoryCleanup := RepositoryCleanup r;
  RepositoryGroup := v; RepositoryHTTPClient := RepositoryHTTPClient r;
  RepositoryNegativeCache := RepositoryNegativeCache r;
  RepositoryProxy := RepositoryProxy r; RepositoryStorage := RepositoryStorage r |}.
Definition set_RepositoryHTTPClient r v := {|
  Format := Format r; Name := Name r; Online := Online r; Type_ := Type_ r;
  RepositoryApt := RepositoryApt r; RepositoryCleanup := RepositoryCleanup r;
  RepositoryGroup := RepositoryGroup r; RepositoryHTTPClient := v;
  RepositoryNegativeCache := RepositoryNegativeCache r;
  RepositoryProxy := RepositoryProxy r; RepositoryStorage := RepositoryStorage r |}.
Definition set_RepositoryNegativeCache r v := {|
  Format := Format r; Name := Name r; Online := Online r; Type_ := Type_ r;
  RepositoryApt := RepositoryApt r; RepositoryCleanup := RepositoryCleanup r;
  RepositoryGroup := RepositoryGroup r; RepositoryHTTPClient := RepositoryHTTPClient r;
  RepositoryNegativeCache := v;
  RepositoryProxy := RepositoryProxy r; RepositoryStorage := RepositoryStorage r |}.
Definition set_RepositoryProxy r v := {|
  Format := Format r; Name := Name r; Online := Online r; Type_ := Type_ r;
  RepositoryApt := RepositoryApt r; RepositoryCleanup := RepositoryCleanup r;
  RepositoryGroup := RepositoryGroup r; RepositoryHTTPClient := RepositoryHTTPClient r;
  RepositoryNegativeCache := RepositoryNegativeCache r;
  RepositoryProxy := v; RepositoryStorage := RepositoryStorage r |}.
Definition set_RepositoryStorage r v := {|
  Format := Format r; Name := Name r; Online := Online r; Type_ := Type_ r;
  RepositoryApt := RepositoryApt r; RepositoryCleanup := RepositoryCleanup r;
  RepositoryGroup := RepositoryGroup r; RepositoryHTTPClient := RepositoryHTTPClient r;
  RepositoryNegativeCache := RepositoryNegativeCache r;
  RepositoryProxy := RepositoryProxy r; RepositoryStorage := v |}.

Definition set_Authentication (h : nexus_RepositoryHTTPClient) v := {|
  AutoBlock := AutoBlock h; Blocked := Blocked h;
  Authentication := v; Connection := Connection h |}.
Definition set_Connection (h : nexus_RepositoryHTTPClient) v := {|
  AutoBlock := AutoBlock h; Blocked := Blocked h;
  Authentication := Authentication h; Connection := v |}.
Definition set_WritePolicy (s : nexus_RepositoryStorage) v := {|
  BlobStoreName := BlobStoreName s;
  StrictContentTypeValidation := StrictContentTypeValidation s;
  WritePolicy := v |}.

(** [repo.RepositoryHTTPClient.F = v], [repo.RepositoryStorage.F = v]: a
    nil pointer dereference panics. *)
Definition update_HTTPClient (r : nexus_Repository)
    (f : nexus_RepositoryHTTPClient -> nexus_RepositoryHTTPClient) : result nexus_Repository :=
  match RepositoryHTTPClient r with
  | Some h => Ret (set_RepositoryHTTPClient r (Some (f h)))
  | None => Panic "nil pointer dereference"
  end.
Definition update_Storage (r : nexus_Repository)
    (f : nexus_RepositoryStorage -> nexus_RepositoryStorage) : result nexus_Repository :=
  match RepositoryStorage r with
  | Some s => Ret (set_RepositoryStorage r (Some (f s)))
  | None => Panic "nil pointer dereference"
  end.

(** ** The resource state held by the Terraform SDK

    One record for the blocks of the schema; a list of blocks is a
    [TypeList] (at most one element where the schema says [MaxItems: 1]). *)

Record StorageBlock := {
  sb_blob_store_name : string; sb_strict_content_type_validation : bool }.
Record CleanupBlock := { cb_policy_names : list string }.
Record ConnectionBlock := {
  cn_retries : Z; cn_user_agent_suffix : string; cn_timeout : Z;
  cn_enable_circular_redirects : bool; cn_enable_cookies : bool;
  cn_use_trust_store : bool }.
Record AuthenticationBlock := {
  au_type : string; au_username : string; au_password : string;
  au_ntlm_host : string; au_ntlm_domain : string }.
Record HttpClientBlock := {
  hc_blocked : bool; hc_auto_block : bool;
  hc_connection : list ConnectionBlock;
  hc_authentication : list AuthenticationBlock }.
Record NegativeCacheBlock := { nc_enabled : bool; nc_ttl : Z }.
Record ProxyBlock := {
  px_content_max_age : Z; px_metadata_max_age : Z; px_remote_url : string }.
Record AptBlock := { ab_distribution : string; ab_flat : bool }.

(** Top-level attributes; [cf_format] and [cf_type] exist only in the
    schema of the second resource definition. *)
Record Config := {
  cf_format : string;
  cf_type : string;
  cf_name : string;
  cf_online : bool;
  cf_storage : list StorageBlock;
  cf_cleanup : list CleanupBlock;
  cf_http_client : list HttpClientBlock;
  cf_negative_cache : list NegativeCacheBlock;
  cf_proxy : list ProxyBlock;
  cf_routing_rule : string;
  cf_apt : list AptBlock }.

(** [*schema.ResourceData]: the id, the top-level keys of the resource's
    schema, and the state. *)
Record ResourceData := { rd_id : string; rd_schema : list string; rd_cfg : Config }.

(** Top-level keys of the two [resourceRepositoryAptProxy] schemas. *)
Definition resourceRepositoryAptProxy_keys : list string :=
  ["name"; "online"; "storage"; "cleanup"; "http_client"; "negative_cache";
   "proxy"; "routing_rule"; "apt"].
Definition resourceRepositoryAptProxy2_keys : list string :=
  ["format"; "type"] ++ resourceRepositoryAptProxy_keys.

(** *** [d.Get]: the state as [interface{}] values *)

(** The zero value test of [d.GetOk]. *)
Definition is_zero (v : gval) : bool :=
  match v with
  | GNil => true
  | GBool b => negb b
  | GInt z => Z.eqb z 0
  | GIntPtr _ => false
  | GString s => String.eqb s ""
  | GList l => match l with [] => true | _ => false end
  | GMap m => match m with [] => true | _ => false end
  | GSet l => match l with [] => true | _ => false end
  end.

(** An element of a block list none of whose attributes holds a value is
    handed out as [nil], not as a map (hence the code's [authList[0] != nil]
    and [connList[0] != nil] tests); the state does not tell an unset
    optional attribute from its zero value. Only the [cleanup] and
    [authentication] blocks can be in that state: every other block has a
    required attribute or an attribute with a default. *)
Definition all_zero (m : list (string * gval)) : bool :=
  forallb (fun kv => is_zero (snd kv)) m.

Definition enc_storage (b : StorageBlock) : gval :=
  GMap [("blob_store_name", GString (sb_blob_store_name b));
        ("strict_content_type_validation", GBool (sb_strict_content_type_validation b))].
Definition cleanup_fields (b : CleanupBlock) : list (string * gval) :=
  [("policy_names", GSet (map GString (cb_policy_names b)))].
Definition cleanup_empty (b : CleanupBlock) : bool :=
  all_zero (cleanup_fields b).
Definition enc_cleanup (b : CleanupBlock) : gval :=
  if cleanup_empty b then GNil else GMap (cleanup_fields b).
Definition enc_connection (b : ConnectionBlock) : gval :=
  GMap [("retries", GInt (cn_retries b));
        ("user_agent_suffix", GString (cn_user_agent_suffix b));
        ("timeout", GInt (cn_timeout b));
        ("enable_circular_redirects", GBool (cn_enable_circular_redirects b));
        ("enable_cookies", GBool (cn_enable_cookies b));
        ("use_trust_store", GBool (cn_use_trust_store b))].
Definition authentication_fields (b : AuthenticationBlock) : list (string * gval) :=
  [("type", GString (au_type b)); ("username", GString (au_username b));
   ("password", GString (au_password b)); ("ntlm_host", GString (au_ntlm_host b));
   ("ntlm_domain", GString (au_ntlm_domain b))].
Definition auth_empty (b : AuthenticationBlock) : bool :=
  all_zero (authentication_fields b).
Definition enc_authentication (b : AuthenticationBlock) : gval :=
  if auth_empty b then GNil else GMap (authentication_fields b).
Definition enc_http_client (b : HttpClientBlock) : gval :=
  GMap [("blocked", GBool (hc_blocked b)); ("auto_block", GBool (hc_auto_block b));
        ("connection", GList (map enc_connection (hc_connection b)));
        ("authentication", GList (map enc_authentication (hc_authentication b)))].
Definition enc_negative_cache (b : NegativeCacheBlock) : gval :=
  GMap [("enabled", GBool (nc_enabled b)); ("ttl", GInt (nc_ttl b))].
Definition enc_proxy (b : ProxyBlock) : gval :=
  GMap [("content_max_age", GInt (px_content_max_age b));
        ("metadata_max_age", GInt (px_metadata_max_age b));
        ("remote_url", GString (px_remote_url b))].
Definition enc_apt (b : AptBlock) : gval :=
  GMap [("distribution", GString (ab_distribution b)); ("flat", GBool (ab_flat b))].

Definition cfg_field (c : Config) (k : string) : gval :=
  if String.eqb k "format" then GString (cf_format c)
  else if String.eqb k "type" then GString (cf_type c)
  else if String.eqb k "name" then GString (cf_name c)
  else if String.eqb k "online" then GBool (cf_online c)
  else if String.eqb k "storage" then GList (map enc_storage (cf_storage c))
  else if String.eqb k "cleanup" then GList (map enc_cleanup (cf_cleanup c))
  else if String.eqb k "http_client" then GList (map enc_http_client (cf_http_client c))
  else if String.eqb k "negative_cache" then GList (map enc_negative_cache (cf_negative_cache c))
  else if String.eqb k "proxy" then GList (map enc_proxy (cf_proxy c))
  else if String.eqb k "routing_rule" then GString (cf_routing_rule c)
  else if String.eqb k "apt" then GList (map enc_apt (cf_apt c))
  else GNil.

(** [d.Get(k)]: [nil] for a key outside the schema. *)
Definition rd_get (d : ResourceData) (k : string) : gval :=
  if existsb (String.eqb k) (rd_schema d) then cfg_field (rd_cfg d) k else GNil.

(** [_, ok := d.GetOk(k)]. *)
Definition rd_getok (d : ResourceData) (k : string) : bool :=
  negb (is_zero (rd_get d k)).

(** Modelled from the spec (the spec's "type-assert values"):
    [interfaceSliceToStringSlice], not in the sources, asserts every
    element of an [[]interface{}] to [string]. *)
Fixpoint interfaceSliceToStringSlice (l : list gval) : result (list string) :=
  match l with
  | [] => Ret []
  | v :: l' =>
      let* s := as_string v in
      let* ss := interfaceSliceToStringSlice l' in
      Ret (s :: ss)
  end.

(** ** [getRepositoryAptProxyFromResourceData]

    The statements after the composite literal [repo := nexus.Repository{...}],
    in source order; each [if _, ok := d.GetOk(k); ok { ... }] block is one
    step on [repo]. *)
Definition fillRepositoryFromResourceData (d : ResourceData) (repo : nexus_Repository)
    : result nexus_Repository :=
  let* repo :=
    if rd_getok d "apt" then
      let* aptList := as_list (rd_get d "apt") in
      let* a0 := slice_index aptList 0 in
      let* aptConfig := as_map a0 in
      let* distribution := as_string (map_index aptConfig "distribution") in
      let* flat := as_bool (map_index aptConfig "flat") in
      Ret (set_RepositoryApt repo (Some {| Distribution := distribution; Flat := flat |}))
    else Ret repo in
  let* repo :=
    if rd_getok d "cleanup" then
      let* cleanupList := as_list (rd_get d "cleanup") in
      let* c0 := slice_index cleanupList 0 in
      let* cleanupConfig := as_map c0 in
      let* policySet := as_set (map_index cleanupConfig "policy_names") in
      let* policyNames := interfaceSliceToStringSlice policySet in
      Ret (set_RepositoryCleanup repo (Some {| PolicyNames := policyNames |}))
    else Ret repo in
  let* repo :=
    if rd_getok d "group" then
      let* groupList := as_list (rd_get d "group") in
      let* groupMemberNames :=
        match groupList with
        | [g0] =>
            if is_nil g0 then Ret []
            else
              let* groupConfig := as_map g0 in
              let* memberSet := as_set (map_index groupConfig "member_names") in
              interfaceSliceToStringSlice memberSet
        | _ => Ret []
        end in
      Ret (set_RepositoryGroup repo (Some {| MemberNames := groupMemberNames |}))
    else Ret repo in
  let* repo :=
    if rd_getok d "http_client" then
      let* httpClientList := as_list (rd_get d "http_client") in
      let* h0 := slice_index httpClientList 0 in
      let* httpClientConfig := as_map h0 in
      let* autoBlock := as_bool (map_index httpClientConfig "auto_block") in
      let* blocked := as_bool (map_index httpClientConfig "blocked") in
      let repo := set_RepositoryHTTPClient repo
        (Some {| AutoBlock := autoBlock; Blocked := blocked;
                 Authentication := None; Connection := None |}) in
      let* repo :=
        match map_lookup httpClientConfig "authentication" with
        | Some v =>
            let* authList := as_list v in
            match authList with
            | [a0] =>
                if is_nil a0 then Ret repo
                else
                  let* authConfig := as_map a0 in
                  let* ntlmDomain := as_string (map_index authConfig "ntlm_domain") in
                  let* ntlmHost := as_string (map_index authConfig "ntlm_host") in
                  let* type_ := as_string (map_index authConfig "type") in
                  let* username := as_string (map_index authConfig "username") in
                  let* password := as_string (map_index authConfig "password") in
                  update_HTTPClient repo (fun h => set_Authentication h
                    (Some {| NTLMDomain := ntlmDomain; NTLMHost := ntlmHost;
                             AuthType := type_; Username := username;
                             Password := password |}))
            | _ => Ret repo
            end
        | None => Ret repo
        end in
      match map_lookup httpClientConfig "connection" with
      | Some v =>
          let* connList := as_list v in
          match connList with
          | [c0] =>
              if is_nil c0 then Ret repo
              else
                let* connConfig := as_map c0 in
                let* retries := as_int_ptr (map_index connConfig "retries") in
                let* timeout := as_int_ptr (map_index connConfig "timeout") in
                update_HTTPClient repo (fun h => set_Connection h
                  (Some {| Retries := retries; Timeout := timeout |}))
          | _ => Ret repo
          end
      | None => Ret repo
      end
    else Ret repo in
  let* repo :=
    if rd_getok d "negative_cache" then
      let* negativeCacheList := as_list (rd_get d "negative_cache") in
      let* n0 := slice_index negativeCacheList 0 in
      let* negativeCacheConfig := as_map n0 in
      let* enabled := as_bool (map_index negativeCacheConfig "enabled") in
      let* ttl := as_int (map_index negativeCacheConfig "ttl") in
      Ret (set_RepositoryNegativeCache repo (Some {| Enabled := enabled; TTL := ttl |}))
    else Ret repo in
  let* repo :=
    if rd_getok d "proxy" then
      let* proxyList := as_list (rd_get d "proxy") in
      let* p0 := slice_index proxyList 0 in
      let* proxyConfig := as_map p0 in
      let* contentMaxAge := as_int (map_index proxyConfig "content_max_age") in
      let* metadataMaxAge := as_int (map_index proxyConfig "metadata_max_age") in
      let* remoteURL := as_string (map_index proxyConfig "remote_url") in
      Ret (set_RepositoryProxy repo (Some {| ContentMaxAge := contentMaxAge;
                                             MetadataMaxAge := metadataMaxAge;
                                             RemoteURL := remoteURL |}))
    else Ret repo in
  let* repo :=
    if rd_getok d "storage" then
      let* storageList := as_list (rd_get d "storage") in
      let* s0 := slice_index storageList 0 in
      let* storageConfig := as_map s0 in
      let* blobStoreName := as_string (map_index storageConfig "blob_store_name") in
      let* strict := as_bool (map_index storageConfig "strict_content_type_validation") in
      let repo := set_RepositoryStorage repo
        (Some {| BlobStoreName := blobStoreName;
                 StrictContentTypeValidation := strict; WritePolicy := None |}) in
      (* Only hosted repository has attribute WritePolicy *)
      if String.eqb (Type_ repo) RepositoryTypeHosted then
        let* writePolicy := as_string (map_index storageConfig "write_policy") in
        update_Storage repo (fun s => set_WritePolicy s (Some writePolicy))
      else Ret repo
    else Ret repo in
  Ret repo.

Definition getRepositoryAptProxyFromResourceData (d : ResourceData) : result nexus_Repository :=
  let* name := as_string (rd_get d "name") in
  let* online := as_bool (rd_get d "online") in
  fillRepositoryFromResourceData d
    {| Format := "apt"; Name := name; Online := online; Type_ := "proxy";
       RepositoryApt := None; RepositoryCleanup := None; RepositoryGroup := None;
       RepositoryHTTPClient := None; RepositoryNegativeCache := None;
       RepositoryProxy := None; RepositoryStorage := None |}.

(** Modelled from the spec: [getRepositoryFromResourceData], not in the
    sources, the marshalling function shared by the format/type
    combinations ("translate between a nested, loosely-typed configuration
    tree and strongly-typed API request ... structures"): the repository's
    format and type are translated from the tree's [format] and [type]
    fields, the other fields as in [getRepositoryAptProxyFromResourceData],
    which is its copy with the format and type fixed. *)
Definition getRepositoryFromResourceData (d : ResourceData) : result nexus_Repository :=
  let* format := as_string (rd_get d "format") in
  let* name := as_string (rd_get d "name") in
  let* online := as_bool (rd_get d "online") in
  let* type_ := as_string (rd_get d "type") in
  fillRepositoryFromResourceData d
    {| Format := format; Name := name; Online := online; Type_ := type_;
       RepositoryApt := None; RepositoryCleanup := None; RepositoryGroup := None;
       RepositoryHTTPClient := None; RepositoryNegativeCache := None;
       RepositoryProxy := None; RepositoryStorage := None |}.

(** The configuration of the example in the resource's documentation. *)
Definition example_config : Config := {|
  cf_format := "apt"; cf_type := "proxy";
  cf_name := "apt-proxy"; cf_online := true;
  cf_storage := [{| sb_blob_store_name := "default"; sb_strict_content_type_validation := true |}];
  cf_cleanup := [{| cb_policy_names := ["string"] |}];
  cf_http_client := [{| hc_blocked := false; hc_auto_block := true;
    hc_connection := [{| cn_retries := 0; cn_user_agent_suffix := "string"; cn_timeout := 60;
                         cn_enable_circular_redirects := false; cn_enable_cookies := false;
                         cn_use_trust_store := false |}];
    hc_authentication := [{| au_type := "username"; au_username := "string";
                             au_password := "string"; au_ntlm_host := "string";
                             au_ntlm_domain := "string" |}] |}];
  cf_negative_cache := [{| nc_enabled := true; nc_ttl := 1440 |}];
  cf_proxy := [{| px_content_max_age := 1440; px_metadata_max_age := 1440;
                  px_remote_url := "https://remote.repository.com" |}];
  cf_routing_rule := "string";
  cf_apt := [{| ab_distribution := "bionic"; ab_flat := false |}] |}.

(** The same configuration without the [connection] block. *)
Definition example_config_noconn : Config := {|
  cf_format := "apt"; cf_type := "proxy";
  cf_name := "apt-proxy"; cf_online := true;
  cf_storage := cf_storage example_config;
  cf_cleanup := cf_cleanup example_config;
  cf_http_client := [{| hc_blocked := false; hc_auto_block := true;
    hc_connection := [];
    hc_authentication := [{| au_type := "username"; au_username := "string";
                             au_password := "string"; au_ntlm_host := "string";
                             au_ntlm_domain := "string" |}] |}];
  cf_negative_cache := cf_negative_cache example_config;
  cf_proxy := cf_proxy example_config;
  cf_routing_rule := "string";
  cf_apt := cf_apt example_config |}.

Definition example_rd (c : Config) : ResourceData :=
  {| rd_id := ""; rd_schema := resourceRepositoryAptProxy_keys; rd_cfg := c |}.

(** Data of the first schema whose id is not the configured name. *)
Definition example_rd_renamed : ResourceData :=
  {| rd_id := "old-apt-proxy"; rd_schema := resourceRepositoryAptProxy_keys;
     rd_cfg := example_config_noconn |}.

(** Data of the second schema with the documented [connection] block. *)
Definition example_rd2_conn : ResourceData :=
  {| rd_id := "apt-proxy"; rd_schema := resourceRepositoryAptProxy2_keys;
     rd_cfg := example_config |}.

(** ** The external client and the handlers' effects

    A handler reads and writes [d] and issues requests to the client. The
    state is [d] and the list of requests issued so far; the client's
    answer to a request may depend on every earlier request (the server's
    state). *)

Inductive goerror := GoError (msg : string).

Inductive call :=
| CallRepositoryCreate (r : nexus_Repository)
| CallRepositoryRead (id : string)
| CallRepositoryUpdate (id : string) (r : nexus_Repository)
| CallRepositoryDelete (id : string).

(** [nexus.Client]; the first argument is the history of requests. *)
Record Client := {
  RepositoryCreate : list call -> nexus_Repository -> option goerror;
  RepositoryRead : list call -> string -> option nexus_Repository * option goerror;
  RepositoryUpdate : list call -> string -> nexus_Repository -> option goerror;
  RepositoryDelete : list call -> string -> option goerror }.

Record hstate := { hs_data : ResourceData; hs_trace : list call }.

Definition M (A : Type) : Type := hstate -> result A * hstate.

Definition ret {A} (a : A) : M A := fun s => (Ret a, s).
Definition bind {A B} (m : M A) (k : A -> M B) : M B :=
  fun s => match m s with
           | (Ret a, s') => k a s'
           | (Panic msg, s') => (Panic msg, s')
           end.

Notation "'let!' x ':=' m 'in' k" := (bind m (fun x => k))
  (at level 200, x name, m at level 100, k at level 200).

Definition lift {A} (r : result A) : M A := fun s => (r, s).

Definition getData : M ResourceData := fun s => (Ret (hs_data s), s).

(** [d.Id()] and [d.SetId(id)]. *)
Definition getId : M string := fun s => (Ret (rd_id (hs_data s)), s).
Definition setId (id : string) : M unit :=
  fun s => (Ret tt, {| hs_data := {| rd_id := id; rd_schema := rd_schema (hs_data s);
                                     rd_cfg := rd_cfg (hs_data s) |};
                       hs_trace := hs_trace s |}).

Definition issue (k : call) (s : hstate) : hstate :=
  {| hs_data := hs_data s; hs_trace := hs_trace s ++ [k] |}.

Definition clientRepositoryCreate (c : Client) (r : nexus_Repository) : M (option goerror) :=
  fun s => (Ret (RepositoryCreate c (hs_trace s) r), issue (CallRepositoryCreate r) s).
Definition clientRepositoryRead (c : Client) (id : string)
    : M (option nexus_Repository * option goerror) :=
  fun s => (Ret (RepositoryRead c (hs_trace s) id), issue (CallRepositoryRead id) s).
Definition clientRepositoryUpdate (c : Client) (id : string) (r : nexus_Repository)
    : M (option goerror) :=
  fun s => (Ret (RepositoryUpdate c (hs_trace s) id r), issue (CallRepositoryUpdate id r) s).
Definition clientRepositoryDelete (c : Client) (id : string) : M (option goerror) :=
  fun s => (Ret (RepositoryDelete c (hs_trace s) id), issue (CallRepositoryDelete id) s).

(** The type of [setRepositoryToResourceData(repo, d) error]: it has no
    access to the client. *)
Definition SetRepositoryFn : Type :=
  nexus_Repository -> ResourceData -> option goerror * ResourceData.

Definition withResourceData (set : SetRepositoryFn) (r : nexus_Repository)
    : M (option goerror) :=
  fun s => let (e, d') := set r (hs_data s) in
           (Ret e, {| hs_data := d'; hs_trace := hs_trace s |}).

Definition run {A} (m : M A) (d : ResourceData) (h : list call) : result A * hstate :=
  m {| hs_data := d; hs_trace := h |}.

Section Handlers.
Variable setRepositoryToResourceData : SetRepositoryFn.

(** Modelled from the spec: [resourceRepositoryRead], not in the sources,
    called by [resourceRepositoryAptProxyUpdate]: a CRUD read, "single
    request/response" to the client with its error passed through; as the
    apt proxy's own Read handler. *)
Definition resourceRepositoryRead (c : Client) : M (option goerror) :=
  let! id := getId in
  let! re := clientRepositoryRead c id in
  let (repo, err) := re in
  match err with
  | Some e => ret (Some e)
  | None =>
      match repo with
      | None => let! _u := setId "" in ret None
      | Some r => withResourceData setRepositoryToResourceData r
      end
  end.
End Handlers.

(** The first definition of the resource in the source file. *)
Module V1.
Section Handlers.
Variable setRepositoryToResourceData : SetRepositoryFn.

Definition resourceRepositoryAptProxyRead (c : Client) : M (option goerror) :=
  let! id := getId in
  let! re := clientRepositoryRead c id in
  let (repo, err) := re in
  match err with
  | Some e => ret (Some e)
  | None =>
      match repo with
      | None => let! _u := setId "" in ret None
      | Some r => withResourceData setRepositoryToResourceData r
      end
  end.

Definition resourceRepositoryAptProxyCreate (c : Client) : M (option goerror) :=
  let! d := getData in
  let! repo := lift (getRepositoryAptProxyFromResourceData d) in
  let! err := clientRepositoryCreate c repo in
  match err with
  | Some e => ret (Some e)
  | None =>
      let! err := withResourceData setRepositoryToResourceData repo in
      match err with
      | Some e => ret (Some e)
      | None => resourceRepositoryAptProxyRead c
      end
  end.

Definition resourceRepositoryAptProxyUpdate (c : Client) : M (option goerror) :=
  let! repoName := getId in
  let! d := getData in
  let! repo := lift (getRepositoryAptProxyFromResourceData d) in
  let! err := clientRepositoryUpdate c repoName repo in
  match err with
  | Some e => ret (Some e)
  | None =>
      let! err := withResourceData setRepositoryToResourceData repo in
      match err with
      | Some e => ret (Some e)
      | None => resourceRepositoryRead setRepositoryToResourceData c
      end
  end.

Definition resourceRepositoryAptProxyDelete (c : Client) : M (option goerror) :=
  let! id := getId in
  clientRepositoryDelete c id.

Definition resourceRepositoryAptProxyExists (c : Client) : M (bool * option goerror) :=
  let! id := getId in
  let! re := clientRepositoryRead c id in
  let (repo, err) := re in
  ret (match repo with Some _ => true | None => false end, err).
End Handlers.
End V1.

(** The second definition of the resource in the source file (schema with
    [format] and [type]). *)
Module V2.
Section Handlers.
Variable setRepositoryToResourceData : SetRepositoryFn.

Definition resourceRepositoryAptProxyRead (c : Client) : M (option goerror) :=
  let! id := getId in
  let! re := clientRepositoryRead c id in
  let (repo, err) := re in
  match err with
  | Some e => ret (Some e)
  | None =>
      match repo with
      | None => let! _u := setId "" in ret None
      | Some r => withResourceData setRepositoryToResourceData r
      end
  end.

Definition resourceRepositoryAptProxyCreate (c : Client) : M (option goerror) :=
  let! d := getData in
  let! repo := lift (getRepositoryFromResourceData d) in
  let! err := clientRepositoryCreate c repo in
  match err with
  | Some e => ret (Some e)
  | None =>
      let! err := withResourceData setRepositoryToResourceData repo in
      match err with
      | Some e => ret (Some e)
      | None => resourceRepositoryAptProxyRead c
      end
  end.

Definition resourceRepositoryAptProxyUpdate (c : Client) : M (option goerror) :=
  let! repoName := getId in
  let! d := getData in
  let! repo := lift (getRepositoryFromResourceData d) in
  let! err := clientRepositoryUpdate c repoName repo in
  match err with
  | Some e => ret (Some e)
  | None =>
      let! err := withResourceData setRepositoryToResourceData repo in
      match err with
      | Some e => ret (Some e)
      | None => resourceRepositoryRead setRepositoryToResourceData c
      end
  end.

Definition resourceRepositoryAptProxyDelete (c : Client) : M (option goerror) :=
  let! id := getId in
  clientRepositoryDelete c id.

Definition resourceRepositoryAptProxyExists (c : Client) : M (bool * option goerror) :=
  let! id := getId in
  let! re := clientRepositoryRead c id in
  let (repo, err) := re in
  ret (match repo with Some _ => true | None => false end, err).
End Handlers.
End V2.

(** Writing a [nexus.Repository] field back as a block list. *)
Definition flatten_storage (s : option nexus_RepositoryStorage) : list StorageBlock :=
  match s with
  | Some s => [{| sb_blob_store_name := BlobStoreName s;
                  sb_strict_content_type_validation := StrictContentTypeValidation s |}]
  | None => []
  end.
Definition flatten_cleanup (c : option nexus_RepositoryCleanup) : list CleanupBlock :=
  match c with Some c => [{| cb_policy_names := PolicyNames c |}] | None => [] end.
Definition flatten_connection (c : option nexus_RepositoryHTTPClientConnection)
    : list ConnectionBlock :=
  match c with
  | Some c => [{| cn_retries := match Retries c with Some z => z | None => 0 end;
                  cn_user_agent_suffix := "";
                  cn_timeout := match Timeout c with Some z => z | None => 0 end;
                  cn_enable_circular_redirects := false; cn_enable_cookies := false;
                  cn_use_trust_store := false |}]
  | None => []
  end.
Definition flatten_authentication (a : option nexus_RepositoryHTTPClientAuthentication)
    : list AuthenticationBlock :=
  match a with
  | Some a => [{| au_type := AuthType a; au_username := Username a;
                  au_password := Password a; au_ntlm_host := NTLMHost a;
                  au_ntlm_domain := NTLMDomain a |}]
  | None => []
  end.
Definition flatten_http_client (h : option nexus_RepositoryHTTPClient) : list HttpClientBlock :=
  match h with
  | Some h => [{| hc_blocked := Blocked h; hc_auto_block := AutoBlock h;
                  hc_connection := flatten_connection (Connection h);
                  hc_authentication := flatten_authentication (Authentication h) |}]
  | None => []
  end.
Definition flatten_negative_cache (n : option nexus_RepositoryNegativeCache)
    : list NegativeCacheBlock :=
  match n with Some n => [{| nc_enabled := Enabled n; nc_ttl := TTL n |}] | None => [] end.
Definition flatten_proxy (p : option nexus_RepositoryProxy) : list ProxyBlock :=
  match p with
  | Some p => [{| px_content_max_age := ContentMaxAge p;
                  px_metadata_max_age := MetadataMaxAge p; px_remote_url := RemoteURL p |}]
  | None => []
  end.
Definition flatten_apt (a : option nexus_RepositoryApt) : list AptBlock :=
  match a with
  | Some a => [{| ab_distribution := Distribution a; ab_flat := Flat a |}]
  | None => []
  end.

(** Modelled from the spec: [setRepositoryToResourceData], not in the
    sources, "translates" the strongly-typed [nexus.Repository] back into
    the configuration tree: the id is the repository name and each field
    of the spec's schema surface ([name], [online], [storage], [cleanup],
    [proxy], [negative_cache], [http_client], [apt]) is written from the
    corresponding repository field (a nil pointer as an empty block list);
    it does not fail. *)
Definition setRepositoryToResourceData : SetRepositoryFn := fun r d =>
  let c := rd_cfg d in
  (None, {| rd_id := Name r; rd_schema := rd_schema d;
            rd_cfg := {| cf_format := cf_format c; cf_type := cf_type c;
                         cf_name := Name r; cf_online := Online r;
                         cf_storage := flatten_storage (RepositoryStorage r);
                         cf_cleanup := flatten_cleanup (RepositoryCleanup r);
                         cf_http_client := flatten_http_client (RepositoryHTTPClient r);
                         cf_negative_cache := flatten_negative_cache (RepositoryNegativeCache r);
                         cf_proxy := flatten_proxy (RepositoryProxy r);
                         cf_routing_rule := cf_routing_rule c;
                         cf_apt := flatten_apt (RepositoryApt r) |} |}).

(** The first element of a block list ([l[0]]). *)
Definition first_block {A} (l : list A) : option A :=
  match l with a :: _ => Some a | [] => None end.

(** The authentication block the code keeps: the only element of the list
    ([len(authList) == 1]) unless it is handed out as [nil]. *)
Definition auth_block (l : list AuthenticationBlock) : option AuthenticationBlock :=
  match l with
  | [a] => if auth_empty a then None else Some a
  | _ => None
  end.

(** The repository [getRepositoryAptProxyFromResourceData] builds from the
    first schema's data when it returns: the first block of each block
    list, the authentication block of [auth_block], no connection. *)
Definition apt_proxy_repository (c : Config) : nexus_Repository := {|
  Format := "apt"; Name := cf_name c; Online := cf_online c; Type_ := "proxy";
  RepositoryApt := option_map (fun a => {| Distribution := ab_distribution a;
                                           Flat := ab_flat a |}) (first_block (cf_apt c));
  RepositoryCleanup := option_map (fun b => {| PolicyNames := cb_policy_names b |})
                         (first_block (cf_cleanup c));
  RepositoryGroup := None;
  RepositoryHTTPClient := option_map (fun h => {|
      AutoBlock := hc_auto_block h; Blocked := hc_blocked h;
      Authentication := option_map (fun a => {|
          NTLMDomain := au_ntlm_domain a; NTLMHost := au_ntlm_host a;
          AuthType := au_type a; Username := au_username a; Password := au_password a |})
        (auth_block (hc_authentication h));
      Connection := None |}) (first_block (cf_http_client c));
  RepositoryNegativeCache := option_map (fun n => {| Enabled := nc_enabled n;
                                                     TTL := nc_ttl n |})
                               (first_block (cf_negative_cache c));
  RepositoryProxy := option_map (fun p => {| ContentMaxAge := px_content_max_age p;
                                             MetadataMaxAge := px_metadata_max_age p;
                                             RemoteURL := px_remote_url p |})
                       (first_block (cf_proxy c));
  RepositoryStorage := option_map (fun s => {| BlobStoreName := sb_blob_store_name s;
                          StrictContentTypeValidation := sb_strict_content_type_validation s;
                          WritePolicy := None |}) (first_block (cf_storage c)) |}.

(** Whether the first [cleanup] block is handed out as [nil] (it has no
    policy names), the case in which [cleanupList[0].(map[string]interface{})]
    panics. *)
Definition empty_cleanup (c : Config) : bool :=
  match first_block (cf_cleanup c) with
  | Some b => cleanup_empty b
  | None => false
  end.

(** Whether the first [http_client] block has exactly one [connection]
    block, the case in which the [*int] assertions run. *)
Definition has_connection (c : Config) : bool :=
  match first_block (cf_http_client c) with
  | Some h => Nat.eqb (length (hc_connection h)) 1
  | None => false
  end.

(** Block lists of at most one element, no [connection] block, and no
    [cleanup] or [authentication] block without a value. *)
Definition single_blocks (c : Config) : bool :=
  Nat.leb (length (cf_storage c)) 1 && Nat.leb (length (cf_cleanup c)) 1 &&
  Nat.leb (length (cf_http_client c)) 1 && Nat.leb (length (cf_negative_cache c)) 1 &&
  Nat.leb (length (cf_proxy c)) 1 && Nat.leb (length (cf_apt c)) 1 &&
  forallb (fun b => negb (cleanup_empty b)) (cf_cleanup c) &&
  forallb (fun h => Nat.leb (length (hc_authentication h)) 1 &&
                    forallb (fun a => negb (auth_empty a)) (hc_authentication h) &&
                    Nat.eqb (length (hc_connection h)) 0) (cf_http_client c).

Definition with_routing_rule (c : Config) (rr : string) : Config := {|
  cf_format := cf_format c; cf_type := cf_type c; cf_name := cf_name c;
  cf_online := cf_online c; cf_storage := cf_storage c; cf_cleanup := cf_cleanup c;
  cf_http_client := cf_http_client c; cf_negative_cache := cf_negative_cache c;
  cf_proxy := cf_proxy c; cf_routing_rule := rr; cf_apt := cf_apt c |}.

(** ** Lemmas *)

Lemma interfaceSliceToStringSlice_strings (l : list string) :
  interfaceSliceToStringSlice (map GString l) = Ret l.
Proof. induction l as [|s l IH]; simpl; [reflexivity|rewrite IH; reflexivity]. Qed.

Ltac split_empty :=
  repeat match goal with
  | |- context [cleanup_empty ?b] => destruct (cleanup_empty b)
  | |- context [auth_empty ?a] => destruct (auth_empty a)
  end.

(** The outcome of [getRepositoryAptProxyFromResourceData] on data of the
    first schema. *)
Lemma get_schema1_cases (id : string) (c : Config) :
  getRepositoryAptProxyFromResourceData
    {| rd_id := id; rd_schema := resourceRepositoryAptProxy_keys; rd_cfg := c |}
  = if empty_cleanup c then Panic "interface conversion: not map[string]interface {}"
    else if has_connection c then Panic "interface conversion: not *int"
    else Ret (apt_proxy_repository c).
Proof.
  destruct c as [fmt ty nm on st cl hc nc px rr ap];
  unfold empty_cleanup, has_connection; simpl.
  destruct st as [|s st]; destruct cl as [|[pn] cl]; destruct ap as [|a ap];
  destruct nc as [|n nc]; destruct px as [|p px];
  destruct hc as [|[hb ha hcn hau] hc];
  try (destruct hau as [|u [|u' hau]]; destruct hcn as [|cn [|cn' hcn]]);
  unfold getRepositoryAptProxyFromResourceData, fillRepositoryFromResourceData;
  cbv - [interfaceSliceToStringSlice cleanup_empty auth_empty];
  split_empty;
  cbv - [interfaceSliceToStringSlice];
  try rewrite interfaceSliceToStringSlice_strings;
  reflexivity.
Qed.

Lemma single_blocks_cases (c : Config) :
  single_blocks c = true ->
  empty_cleanup c = false /\ has_connection c = false /\
  forall h, first_block (cf_http_client c) = Some h ->
    (hc_authentication h = [] \/ exists a, hc_authentication h = [a] /\ auth_empty a = false).
Proof.
  destruct c as [fmt ty nm on st cl hc nc px rr ap]; unfold single_blocks.
  cbn [cf_storage cf_cleanup cf_http_client cf_negative_cache cf_proxy cf_apt].
  intros H; repeat rewrite andb_true_iff in H.
  destruct H as [[[[[[[Hst Hcl] Hhc] Hnc] Hpx] Hap] Hcz] Hall].
  unfold empty_cleanup, has_connection; cbn [cf_cleanup cf_http_client].
  destruct cl as [|b [|? ?]]; try discriminate Hcl;
  destruct hc as [|h [|? ?]]; try discriminate Hhc;
  cbn [first_block];
  try (cbn [forallb] in Hcz; destruct (cleanup_empty b); [discriminate Hcz|clear Hcz]);
  (split; [reflexivity|]);
  try (split; [reflexivity|intros ? E; discriminate E]).
  all: destruct h as [hb ha hcn hau]; cbn [forallb hc_authentication hc_connection] in Hall;
    repeat rewrite andb_true_iff in Hall;
    destruct Hall as [[[Hau Hae] Hcn] _];
    (destruct hcn; [|discriminate Hcn]);
    split; [reflexivity|]; intros h' E; injection E as <-; cbn [hc_authentication];
    (destruct hau as [|u [|? ?]]; [left; reflexivity| |discriminate Hau]);
    right; exists u; split; [reflexivity|];
    cbn [forallb] in Hae; destruct (auth_empty u); [discriminate Hae|reflexivity].
Qed.

Lemma get_single_blocks (id : string) (c : Config) :
  single_blocks c = true ->
  getRepositoryAptProxyFromResourceData
    {| rd_id := id; rd_schema := resourceRepositoryAptProxy_keys; rd_cfg := c |}
  = Ret (apt_proxy_repository c).
Proof.
  intros H; destruct (single_blocks_cases c H) as (Hcl & Hcn & _).
  rewrite get_schema1_cases, Hcl, Hcn; reflexivity.
Qed.
Lemma bind_result_Ret {A B} (m : result A) (k : A -> result B) (b : B) :
  bind_result m k = Ret b -> exists a, m = Ret a /\ k a = Ret b.
Proof. destruct m as [a|msg]; simpl; [eauto|discriminate]. Qed.

Lemma update_HTTPClient_Ret r f r' :
  update_HTTPClient r f = Ret r' ->
  exists h, RepositoryHTTPClient r = Some h /\ r' = set_RepositoryHTTPClient r (Some (f h)).
Proof. unfold update_HTTPClient; destruct (RepositoryHTTPClient r); intros E;
  [inversion E; eauto|discriminate]. Qed.

Lemma update_Storage_Ret r f r' :
  update_Storage r f = Ret r' ->
  exists s, RepositoryStorage r = Some s /\ r' = set_RepositoryStorage r (Some (f s)).
Proof. unfold update_Storage; destruct (RepositoryStorage r); intros E;
  [inversion E; eauto|discriminate]. Qed.

(** Neither schema has a [group] attribute. *)
Lemma rd_getok_group (d : ResourceData) : rd_getok d "group" = false.
Proof. unfold rd_getok, rd_get; destruct existsb; reflexivity. Qed.

Ltac inv_ret :=
  repeat match goal with
  | H : bind_result _ _ = Ret _ |- _ =>
      apply bind_result_Ret in H; destruct H as (? & ? & H)
  | H : update_HTTPClient _ _ = Ret _ |- _ =>
      apply update_HTTPClient_Ret in H; destruct H as (? & ? & ?); subst
  | H : update_Storage _ _ = Ret _ |- _ =>
      apply update_Storage_Ret in H; destruct H as (? & ? & ?); subst
  | H : Ret _ = Ret _ |- _ => injection H as H; subst
  | H : Panic _ = Ret _ |- _ => discriminate H
  | H : (if ?b then _ else _) = Ret _ |- _ => destruct b eqn:?
  | H : match ?x with _ => _ end = Ret _ |- _ => destruct x
  end.

Lemma fill_preserves (d : ResourceData) (repo r : nexus_Repository) :
  fillRepositoryFromResourceData d repo = Ret r ->
  Format r = Format repo /\ Type_ r = Type_ repo /\
  RepositoryGroup r = RepositoryGroup repo /\
  (Type_ repo <> RepositoryTypeHosted ->
   (forall s, RepositoryStorage repo = Some s -> WritePolicy s = None) ->
   forall s, RepositoryStorage r = Some s -> WritePolicy s = None).
Proof.
  unfold fillRepositoryFromResourceData; rewrite rd_getok_group; intros H.
  inv_ret; simpl in *;
  repeat split; auto; intros Hty Hws s Hs;
  try (injection Hs as <-; reflexivity);
  try (exfalso; apply Hty; apply String.eqb_eq; assumption);
  auto.
Qed.

(** ** Claims *)

(** C1 (code_bug): [getRepositoryAptProxyFromResourceData] never reads the
    [routing_rule] attribute, which the schema describes as assigning an
    existing routing rule: whatever the resource data, changing
    [routing_rule] does not change the outcome, and on the documented
    example without its [connection] block (routing_rule = "string") the
    function returns a repository. *)
Theorem getRepositoryAptProxy_ignores_routing_rule :
  (forall (d : ResourceData) (rr : string),
     getRepositoryAptProxyFromResourceData
       {| rd_id := rd_id d; rd_schema := rd_schema d;
          rd_cfg := with_routing_rule (rd_cfg d) rr |}
     = getRepositoryAptProxyFromResourceData d) /\
  cf_routing_rule example_config_noconn = "string" /\
  getRepositoryAptProxyFromResourceData (example_rd example_config_noconn)
  = Ret (apt_proxy_repository example_config_noconn).
Proof.
  split; [|split; [reflexivity|vm_compute; reflexivity]].
  intros [id sch c] rr; destruct c; reflexivity.
Qed.

(** C2 (code_bug): whenever the [http_client] block has a [connection]
    block, [getRepositoryAptProxyFromResourceData] panics: the SDK hands
    [retries] out as an [int] and the code asserts [*int]. (A [cleanup]
    block without policy names makes it panic earlier, at the [cleanup]
    block, which is why that case is set aside.) *)
Theorem getRepositoryAptProxy_connection_panics (id : string) (c : Config)
    (h : HttpClientBlock) (hs : list HttpClientBlock) (cn : ConnectionBlock) :
  cf_http_client c = h :: hs ->
  hc_connection h = [cn] ->
  empty_cleanup c = false ->
  getRepositoryAptProxyFromResourceData
    {| rd_id := id; rd_schema := resourceRepositoryAptProxy_keys; rd_cfg := c |}
  = Panic "interface conversion: not *int".
Proof.
  intros Hh Hcn Hcl; rewrite get_schema1_cases, Hcl.
  unfold has_connection; rewrite Hh; cbn [first_block]; rewrite Hcn; reflexivity.
Qed.

Lemma getRepositoryAptProxy_connection_panics_witness :
  getRepositoryAptProxyFromResourceData (example_rd example_config)
  = Panic "interface conversion: not *int".
Proof.
  apply (getRepositoryAptProxy_connection_panics "" example_config
           (hd {| hc_blocked := false; hc_auto_block := false; hc_connection := [];
                  hc_authentication := [] |} (cf_http_client example_config)) []
           (hd {| cn_retries := 0; cn_user_agent_suffix := ""; cn_timeout := 0;
                  cn_enable_circular_redirects := false; cn_enable_cookies := false;
                  cn_use_trust_store := false |}
               (flat_map hc_connection (cf_http_client example_config))));
  vm_compute; reflexivity.
Defined.

(** C8: whatever the resource data, a repository returned by
    [getRepositoryAptProxyFromResourceData] has format "apt" and type
    "proxy", no write policy and no group. *)
Theorem getRepositoryAptProxy_format_type (d : ResourceData) (r : nexus_Repository) :
  getRepositoryAptProxyFromResourceData d = Ret r ->
  Format r = "apt" /\ Type_ r = "proxy" /\ RepositoryGroup r = None /\
  forall s, RepositoryStorage r = Some s -> WritePolicy s = None.
Proof.
  unfold getRepositoryAptProxyFromResourceData; intros H.
  apply bind_result_Ret in H; destruct H as (name & _ & H).
  apply bind_result_Ret in H; destruct H as (online & _ & H).
  apply fill_preserves in H; simpl in H.
  destruct H as (-> & -> & -> & Hs).
  repeat split; apply Hs; [discriminate|discriminate].
Qed.

Lemma getRepositoryAptProxy_format_type_witness :
  exists r, getRepositoryAptProxyFromResourceData (example_rd example_config_noconn) = Ret r /\
  Format r = "apt" /\ Type_ r = "proxy" /\ RepositoryGroup r = None /\
  forall s, RepositoryStorage r = Some s -> WritePolicy s = None.
Proof.
  exists (apt_proxy_repository example_config_noconn); split; [vm_compute; reflexivity|].
  apply (getRepositoryAptProxy_format_type (example_rd example_config_noconn)); reflexivity.
Defined.

(** ** Runs of the handlers *)

Definition st (d : ResourceData) (h : list call) : hstate :=
  {| hs_data := d; hs_trace := h |}.

Definition isSome {A} (o : option A) : bool :=
  match o with Some _ => true | None => false end.

(** The read handlers (both definitions and [resourceRepositoryRead]). *)
Definition read_outcome (set : SetRepositoryFn) (c : Client) (d : ResourceData)
    (h : list call) : result (option goerror) * hstate :=
  let h' := (h ++ [CallRepositoryRead (rd_id d)])%list in
  match RepositoryRead c h (rd_id d) with
  | (_, Some e) => (Ret (Some e), st d h')
  | (None, None) =>
      (Ret None, st {| rd_id := ""; rd_schema := rd_schema d; rd_cfg := rd_cfg d |} h')
  | (Some r, None) => let (e, d') := set r d in (Ret e, st d' h')
  end.

Lemma V1_read_run set c d h :
  run (V1.resourceRepositoryAptProxyRead set c) d h = read_outcome set c d h.
Proof.
  unfold run, V1.resourceRepositoryAptProxyRead, read_outcome, bind, getId,
    clientRepositoryRead, issue, ret, setId, withResourceData, st; simpl.
  destruct (RepositoryRead c h (rd_id d)) as [[r|] [e|]]; try reflexivity;
  destruct (set r d); reflexivity.
Qed.

Lemma V2_read_run set c d h :
  run (V2.resourceRepositoryAptProxyRead set c) d h = read_outcome set c d h.
Proof.
  unfold run, V2.resourceRepositoryAptProxyRead, read_outcome, bind, getId,
    clientRepositoryRead, issue, ret, setId, withResourceData, st; simpl.
  destruct (RepositoryRead c h (rd_id d)) as [[r|] [e|]]; try reflexivity;
  destruct (set r d); reflexivity.
Qed.

Lemma resourceRepositoryRead_run set c d h :
  run (resourceRepositoryRead set c) d h = read_outcome set c d h.
Proof.
  unfold run, resourceRepositoryRead, read_outcome, bind, getId,
    clientRepositoryRead, issue, ret, setId, withResourceData, st; simpl.
  destruct (RepositoryRead c h (rd_id d)) as [[r|] [e|]]; try reflexivity;
  destruct (set r d); reflexivity.
Qed.

(** Create and Update: the write request, the write-back, the read. *)
Definition write_outcome (set : SetRepositoryFn) (c : Client) (d : ResourceData)
    (h : list call) (k : call) (werr : option goerror)
    (repo : nexus_Repository) : result (option goerror) * hstate :=
  let h' := (h ++ [k])%list in
  match werr with
  | Some e => (Ret (Some e), st d h')
  | None =>
      match set repo d with
      | (Some e, d') => (Ret (Some e), st d' h')
      | (None, d') => read_outcome set c d' h'
      end
  end.

Lemma V1_create_run set c d h repo :
  getRepositoryAptProxyFromResourceData d = Ret repo ->
  run (V1.resourceRepositoryAptProxyCreate set c) d h
  = write_outcome set c d h (CallRepositoryCreate repo) (RepositoryCreate c h repo) repo.
Proof.
  intros Hg.
  unfold run, V1.resourceRepositoryAptProxyCreate, write_outcome, bind, getData, lift,
    clientRepositoryCreate, issue, ret, withResourceData, st; simpl; rewrite Hg; cbn [hs_data hs_trace].
  destruct (RepositoryCreate c h repo) as [e|]; [reflexivity|].
  simpl; cbn [hs_data hs_trace]; destruct (set repo d) as [[e|] d']; [reflexivity|].
  apply V1_read_run.
Qed.

Lemma V2_create_run set c d h repo :
  getRepositoryFromResourceData d = Ret repo ->
  run (V2.resourceRepositoryAptProxyCreate set c) d h
  = write_outcome set c d h (CallRepositoryCreate repo) (RepositoryCreate c h repo) repo.
Proof.
  intros Hg.
  unfold run, V2.resourceRepositoryAptProxyCreate, write_outcome, bind, getData, lift,
    clientRepositoryCreate, issue, ret, withResourceData, st; simpl; rewrite Hg; cbn [hs_data hs_trace].
  destruct (RepositoryCreate c h repo) as [e|]; [reflexivity|].
  simpl; cbn [hs_data hs_trace]; destruct (set repo d) as [[e|] d']; [reflexivity|].
  apply V2_read_run.
Qed.

Lemma V1_update_run set c d h repo :
  getRepositoryAptProxyFromResourceData d = Ret repo ->
  run (V1.resourceRepositoryAptProxyUpdate set c) d h
  = write_outcome set c d h (CallRepositoryUpdate (rd_id d) repo)
      (RepositoryUpdate c h (rd_id d) repo) repo.
Proof.
  intros Hg.
  unfold run, V1.resourceRepositoryAptProxyUpdate, write_outcome, bind, getData, getId,
    lift, clientRepositoryUpdate, issue, ret, withResourceData, st; simpl; rewrite Hg; cbn [hs_data hs_trace].
  destruct (RepositoryUpdate c h (rd_id d) repo) as [e|]; [reflexivity|].
  simpl; cbn [hs_data hs_trace]; destruct (set repo d) as [[e|] d']; [reflexivity|].
  apply resourceRepositoryRead_run.
Qed.

Lemma V2_update_run set c d h repo :
  getRepositoryFromResourceData d = Ret repo ->
  run (V2.resourceRepositoryAptProxyUpdate set c) d h
  = write_outcome set c d h (CallRepositoryUpdate (rd_id d) repo)
      (RepositoryUpdate c h (rd_id d) repo) repo.
Proof.
  intros Hg.
  unfold run, V2.resourceRepositoryAptProxyUpdate, write_outcome, bind, getData, getId,
    lift, clientRepositoryUpdate, issue, ret, withResourceData, st; simpl; rewrite Hg; cbn [hs_data hs_trace].
  destruct (RepositoryUpdate c h (rd_id d) repo) as [e|]; [reflexivity|].
  simpl; cbn [hs_data hs_trace]; destruct (set repo d) as [[e|] d']; [reflexivity|].
  apply resourceRepositoryRead_run.
Qed.

Lemma V1_delete_run c d h :
  run (V1.resourceRepositoryAptProxyDelete c) d h
  = (Ret (RepositoryDelete c h (rd_id d)), st d (h ++ [CallRepositoryDelete (rd_id d)])).
Proof. reflexivity. Qed.

Lemma V2_delete_run c d h :
  run (V2.resourceRepositoryAptProxyDelete c) d h
  = (Ret (RepositoryDelete c h (rd_id d)), st d (h ++ [CallRepositoryDelete (rd_id d)])).
Proof. reflexivity. Qed.

Definition exists_outcome (c : Client) (d : ResourceData) (h : list call)
    : result (bool * option goerror) * hstate :=
  (Ret (isSome (fst (RepositoryRead c h (rd_id d))), snd (RepositoryRead c h (rd_id d))),
   st d (h ++ [CallRepositoryRead (rd_id d)])).

Lemma V1_exists_run c d h :
  run (V1.resourceRepositoryAptProxyExists c) d h = exists_outcome c d h.
Proof.
  unfold run, V1.resourceRepositoryAptProxyExists, exists_outcome, bind, getId,
    clientRepositoryRead, issue, ret, st; simpl.
  destruct (RepositoryRead c h (rd_id d)) as [[r|] e]; reflexivity.
Qed.

Lemma V2_exists_run c d h :
  run (V2.resourceRepositoryAptProxyExists c) d h = exists_outcome c d h.
Proof.
  unfold run, V2.resourceRepositoryAptProxyExists, exists_outcome, bind, getId,
    clientRepositoryRead, issue, ret, st; simpl.
  destruct (RepositoryRead c h (rd_id d)) as [[r|] e]; reflexivity.
Qed.

Lemma read_outcome_trace set c d h :
  hs_trace (snd (read_outcome set c d h)) = h ++ [CallRepositoryRead (rd_id d)].
Proof.
  unfold read_outcome; destruct (RepositoryRead c h (rd_id d)) as [[r|] [e|]];
  try reflexivity; destruct (set r d); reflexivity.
Qed.

(** The requests issued by Create and Update after the requests [h]: the
    write request [k], then, only when it returned nil ([werr]) and the
    write-back [wb] returned nil, one read of the id the write-back left. *)
Definition write_requests (k : call) (werr : option goerror)
    (wb : option goerror * ResourceData) (h : list call) : list call :=
  match werr, fst wb with
  | None, None => h ++ [k; CallRepositoryRead (rd_id (snd wb))]
  | _, _ => h ++ [k]
  end.

Lemma write_outcome_trace set c d h k werr repo :
  hs_trace (snd (write_outcome set c d h k werr repo))
  = write_requests k werr (set repo d) h.
Proof.
  unfold write_requests, write_outcome; destruct werr as [e|]; [reflexivity|].
  destruct (set repo d) as [[e|] d']; [reflexivity|].
  cbn [fst snd]; rewrite read_outcome_trace, <- app_assoc; reflexivity.
Qed.

Lemma write_outcome_error set c d h k e repo :
  write_outcome set c d h k (Some e) repo = (Ret (Some e), st d (h ++ [k])).
Proof. reflexivity. Qed.

(** Concrete clients. *)
Definition client_ok (r0 : nexus_Repository) : Client := {|
  RepositoryCreate := fun _ _ => None;
  RepositoryRead := fun _ _ => (Some r0, None);
  RepositoryUpdate := fun _ _ _ => None;
  RepositoryDelete := fun _ _ => None |}.

Definition refused : goerror := GoError "connection refused".

Definition client_failing : Client := {|
  RepositoryCreate := fun _ _ => Some refused;
  RepositoryRead := fun _ _ => (None, Some refused);
  RepositoryUpdate := fun _ _ _ => Some refused;
  RepositoryDelete := fun _ _ => Some refused |}.

(** Accepts the write, then fails the read. *)
Definition client_read_fails : Client := {|
  RepositoryCreate := fun _ _ => None;
  RepositoryRead := fun _ _ => (None, Some refused);
  RepositoryUpdate := fun _ _ _ => None;
  RepositoryDelete := fun _ _ => None |}.

(** The repository does not exist on the server. *)
Definition client_gone : Client := {|
  RepositoryCreate := fun _ _ => None;
  RepositoryRead := fun _ _ => (None, None);
  RepositoryUpdate := fun _ _ _ => None;
  RepositoryDelete := fun _ _ => None |}.

(** Resource data valid for both schemas (the second schema's). *)
Definition example_rd2 : ResourceData :=
  {| rd_id := "apt-proxy"; rd_schema := resourceRepositoryAptProxy2_keys;
     rd_cfg := example_config_noconn |}.

Definition example_repo : nexus_Repository := apt_proxy_repository example_config_noconn.

(** C3 (amended): Read, Delete and Exists issue exactly one request; Create
    and Update issue one write request and, only when it succeeded and the
    write-back returned nil, one read request; no request is issued again after a failure. For Create
    and Update this holds whenever the marshalling returns. *)
Theorem handlers_single_requests (set : SetRepositoryFn) (c : Client)
    (d : ResourceData) (h : list call) :
  hs_trace (snd (run (V1.resourceRepositoryAptProxyRead set c) d h))
    = h ++ [CallRepositoryRead (rd_id d)] /\
  hs_trace (snd (run (V2.resourceRepositoryAptProxyRead set c) d h))
    = h ++ [CallRepositoryRead (rd_id d)] /\
  hs_trace (snd (run (V1.resourceRepositoryAptProxyDelete c) d h))
    = h ++ [CallRepositoryDelete (rd_id d)] /\
  hs_trace (snd (run (V2.resourceRepositoryAptProxyDelete c) d h))
    = h ++ [CallRepositoryDelete (rd_id d)] /\
  hs_trace (snd (run (V1.resourceRepositoryAptProxyExists c) d h))
    = h ++ [CallRepositoryRead (rd_id d)] /\
  hs_trace (snd (run (V2.resourceRepositoryAptProxyExists c) d h))
    = h ++ [CallRepositoryRead (rd_id d)] /\
  (forall repo, getRepositoryAptProxyFromResourceData d = Ret repo ->
     hs_trace (snd (run (V1.resourceRepositoryAptProxyCreate set c) d h))
       = write_requests (CallRepositoryCreate repo) (RepositoryCreate c h repo) (set repo d) h) /\
  (forall repo, getRepositoryFromResourceData d = Ret repo ->
     hs_trace (snd (run (V2.resourceRepositoryAptProxyCreate set c) d h))
       = write_requests (CallRepositoryCreate repo) (RepositoryCreate c h repo) (set repo d) h) /\
  (forall repo, getRepositoryAptProxyFromResourceData d = Ret repo ->
     hs_trace (snd (run (V1.resourceRepositoryAptProxyUpdate set c) d h))
       = write_requests (CallRepositoryUpdate (rd_id d) repo) (RepositoryUpdate c h (rd_id d) repo) (set repo d) h) /\
  (forall repo, getRepositoryFromResourceData d = Ret repo ->
     hs_trace (snd (run (V2.resourceRepositoryAptProxyUpdate set c) d h))
       = write_requests (CallRepositoryUpdate (rd_id d) repo) (RepositoryUpdate c h (rd_id d) repo) (set repo d) h).
Proof.
  rewrite V1_read_run, V2_read_run, V1_delete_run, V2_delete_run, V1_exists_run,
    V2_exists_run, !read_outcome_trace.
  repeat split; try reflexivity; intros repo Hg;
  [rewrite (V1_create_run _ _ _ _ _ Hg) | rewrite (V2_create_run _ _ _ _ _ Hg)
  |rewrite (V1_update_run _ _ _ _ _ Hg) | rewrite (V2_update_run _ _ _ _ _ Hg)];
  apply write_outcome_trace.
Qed.

Lemma handlers_single_requests_witness :
  hs_trace (snd (run (V1.resourceRepositoryAptProxyCreate setRepositoryToResourceData
                        (client_ok example_repo)) example_rd2 []))
  = write_requests (CallRepositoryCreate example_repo) None
      (setRepositoryToResourceData example_repo example_rd2) [] /\
  hs_trace (snd (run (V2.resourceRepositoryAptProxyCreate setRepositoryToResourceData
                        (client_ok example_repo)) example_rd2 []))
  = write_requests (CallRepositoryCreate example_repo) None
      (setRepositoryToResourceData example_repo example_rd2) [] /\
  hs_trace (snd (run (V1.resourceRepositoryAptProxyUpdate setRepositoryToResourceData
                        client_failing) example_rd2 []))
  = write_requests (CallRepositoryUpdate "apt-proxy" example_repo) (Some refused)
      (setRepositoryToResourceData example_repo example_rd2) [] /\
  hs_trace (snd (run (V2.resourceRepositoryAptProxyUpdate setRepositoryToResourceData
                        client_failing) example_rd2 []))
  = write_requests (CallRepositoryUpdate "apt-proxy" example_repo) (Some refused)
      (setRepositoryToResourceData example_repo example_rd2) [].
Proof.
  destruct (handlers_single_requests setRepositoryToResourceData (client_ok example_repo)
              example_rd2 []) as (_ & _ & _ & _ & _ & _ & Hc1 & Hc2 & _ & _).
  destruct (handlers_single_requests setRepositoryToResourceData client_failing
              example_rd2 []) as (_ & _ & _ & _ & _ & _ & _ & _ & Hu1 & Hu2).
  split; [apply (Hc1 example_repo); vm_compute; reflexivity|].
  split; [apply (Hc2 example_repo); vm_compute; reflexivity|].
  split; [apply (Hu1 example_repo); vm_compute; reflexivity|].
  apply (Hu2 example_repo); vm_compute; reflexivity.
Defined.

(** C3 (counterexample): a successful Create issues two requests, the
    create and a read. *)
Lemma create_issues_two_requests :
  hs_trace (snd (run (V1.resourceRepositoryAptProxyCreate setRepositoryToResourceData
                        (client_ok example_repo)) example_rd2 []))
  = [CallRepositoryCreate example_repo; CallRepositoryRead "apt-proxy"].
Proof. vm_compute; reflexivity. Qed.

(** C4: whenever a request of a handler returns a non-nil error, the
    handler returns that error unchanged (Read, Delete, Exists, and Create
    and Update, both for their write request and for the read that follows
    it). *)
Theorem handlers_return_client_error (set : SetRepositoryFn) (c : Client)
    (d : ResourceData) (h : list call) (e : goerror) :
  (snd (RepositoryRead c h (rd_id d)) = Some e ->
     fst (run (V1.resourceRepositoryAptProxyRead set c) d h) = Ret (Some e) /\
     fst (run (V2.resourceRepositoryAptProxyRead set c) d h) = Ret (Some e) /\
     fst (run (V1.resourceRepositoryAptProxyExists c) d h)
       = Ret (isSome (fst (RepositoryRead c h (rd_id d))), Some e) /\
     fst (run (V2.resourceRepositoryAptProxyExists c) d h)
       = Ret (isSome (fst (RepositoryRead c h (rd_id d))), Some e)) /\
  (RepositoryDelete c h (rd_id d) = Some e ->
     fst (run (V1.resourceRepositoryAptProxyDelete c) d h) = Ret (Some e) /\
     fst (run (V2.resourceRepositoryAptProxyDelete c) d h) = Ret (Some e)) /\
  (forall repo, getRepositoryAptProxyFromResourceData d = Ret repo ->
     (RepositoryCreate c h repo = Some e ->
        fst (run (V1.resourceRepositoryAptProxyCreate set c) d h) = Ret (Some e)) /\
     (RepositoryUpdate c h (rd_id d) repo = Some e ->
        fst (run (V1.resourceRepositoryAptProxyUpdate set c) d h) = Ret (Some e)) /\
     (forall d', RepositoryCreate c h repo = None -> set repo d = (None, d') ->
        snd (RepositoryRead c (h ++ [CallRepositoryCreate repo]) (rd_id d')) = Some e ->
        fst (run (V1.resourceRepositoryAptProxyCreate set c) d h) = Ret (Some e)) /\
     (forall d', RepositoryUpdate c h (rd_id d) repo = None -> set repo d = (None, d') ->
        snd (RepositoryRead c (h ++ [CallRepositoryUpdate (rd_id d) repo]) (rd_id d'))
          = Some e ->
        fst (run (V1.resourceRepositoryAptProxyUpdate set c) d h) = Ret (Some e))) /\
  (forall repo, getRepositoryFromResourceData d = Ret repo ->
     (RepositoryCreate c h repo = Some e ->
        fst (run (V2.resourceRepositoryAptProxyCreate set c) d h) = Ret (Some e)) /\
     (RepositoryUpdate c h (rd_id d) repo = Some e ->
        fst (run (V2.resourceRepositoryAptProxyUpdate set c) d h) = Ret (Some e)) /\
     (forall d', RepositoryCreate c h repo = None -> set repo d = (None, d') ->
        snd (RepositoryRead c (h ++ [CallRepositoryCreate repo]) (rd_id d')) = Some e ->
        fst (run (V2.resourceRepositoryAptProxyCreate set c) d h) = Ret (Some e)) /\
     (forall d', RepositoryUpdate c h (rd_id d) repo = None -> set repo d = (None, d') ->
        snd (RepositoryRead c (h ++ [CallRepositoryUpdate (rd_id d) repo]) (rd_id d'))
          = Some e ->
        fst (run (V2.resourceRepositoryAptProxyUpdate set c) d h) = Ret (Some e))).
Proof.
  assert (Hread : forall d0 h0, snd (RepositoryRead c h0 (rd_id d0)) = Some e ->
            fst (read_outcome set c d0 h0) = Ret (Some e)).
  { intros d0 h0; unfold read_outcome; destruct (RepositoryRead c h0 (rd_id d0)) as [r e'].
    simpl; intros ->; destruct r; reflexivity. }
  assert (Hwrite : forall k werr repo d', werr = None -> set repo d = (None, d') ->
            snd (RepositoryRead c (h ++ [k]) (rd_id d')) = Some e ->
            fst (write_outcome set c d h k werr repo) = Ret (Some e)).
  { intros k werr repo d' -> Hs Hr; unfold write_outcome; rewrite Hs; apply Hread; exact Hr. }
  split.
  { intros Hr; split; [|split; [|split]].
    - rewrite V1_read_run; apply Hread; exact Hr.
    - rewrite V2_read_run; apply Hread; exact Hr.
    - rewrite V1_exists_run; unfold exists_outcome; simpl; rewrite Hr; reflexivity.
    - rewrite V2_exists_run; unfold exists_outcome; simpl; rewrite Hr; reflexivity. }
  split.
  { intros Hr; split.
    - rewrite V1_delete_run; simpl; rewrite Hr; reflexivity.
    - rewrite V2_delete_run; simpl; rewrite Hr; reflexivity. }
  split.
  { intros repo Hg; split; [|split; [|split]].
    - intros Hc; rewrite (V1_create_run _ _ _ _ _ Hg), Hc; reflexivity.
    - intros Hu; rewrite (V1_update_run _ _ _ _ _ Hg), Hu; reflexivity.
    - intros d' Hc Hs Hr; rewrite (V1_create_run _ _ _ _ _ Hg); apply (Hwrite _ _ _ d'); assumption.
    - intros d' Hu Hs Hr; rewrite (V1_update_run _ _ _ _ _ Hg); apply (Hwrite _ _ _ d'); assumption. }
  { intros repo Hg; split; [|split; [|split]].
    - intros Hc; rewrite (V2_create_run _ _ _ _ _ Hg), Hc; reflexivity.
    - intros Hu; rewrite (V2_update_run _ _ _ _ _ Hg), Hu; reflexivity.
    - intros d' Hc Hs Hr; rewrite (V2_create_run _ _ _ _ _ Hg); apply (Hwrite _ _ _ d'); assumption.
    - intros d' Hu Hs Hr; rewrite (V2_update_run _ _ _ _ _ Hg); apply (Hwrite _ _ _ d'); assumption. }
Qed.

Lemma handlers_return_client_error_witness :
  fst (run (V1.resourceRepositoryAptProxyRead setRepositoryToResourceData client_failing)
         example_rd2 []) = Ret (Some refused) /\
  fst (run (V1.resourceRepositoryAptProxyDelete client_failing) example_rd2 []) = Ret (Some refused) /\
  fst (run (V1.resourceRepositoryAptProxyCreate setRepositoryToResourceData client_failing)
         example_rd2 []) = Ret (Some refused) /\
  fst (run (V2.resourceRepositoryAptProxyUpdate setRepositoryToResourceData client_read_fails)
         example_rd2 []) = Ret (Some refused).
Proof.
  destruct (handlers_return_client_error setRepositoryToResourceData client_failing
              example_rd2 [] refused) as (Hr & Hd & Hc1 & _).
  destruct (handlers_return_client_error setRepositoryToResourceData client_read_fails
              example_rd2 [] refused) as (_ & _ & _ & Hc2).
  split; [apply Hr; reflexivity|].
  split; [apply Hd; reflexivity|].
  split; [apply (Hc1 example_repo); [vm_compute; reflexivity|reflexivity]|].
  destruct (Hc2 example_repo) as (_ & _ & _ & Hu); [vm_compute; reflexivity|].
  apply (Hu (snd (setRepositoryToResourceData example_repo example_rd2)));
  vm_compute; reflexivity.
Defined.

(** C6: Exists issues the single read [RepositoryRead(d.Id())], returns
    true exactly when it returned a repository, with the client's error
    unchanged, and leaves [d] as it was. *)
Theorem exists_handler_delegates (c : Client) (d : ResourceData) (h : list call) :
  run (V1.resourceRepositoryAptProxyExists c) d h
  = (Ret (match fst (RepositoryRead c h (rd_id d)) with Some _ => true | None => false end,
          snd (RepositoryRead c h (rd_id d))),
     {| hs_data := d; hs_trace := h ++ [CallRepositoryRead (rd_id d)] |}) /\
  run (V2.resourceRepositoryAptProxyExists c) d h
  = (Ret (match fst (RepositoryRead c h (rd_id d)) with Some _ => true | None => false end,
          snd (RepositoryRead c h (rd_id d))),
     {| hs_data := d; hs_trace := h ++ [CallRepositoryRead (rd_id d)] |}).
Proof. rewrite V1_exists_run, V2_exists_run; split; reflexivity. Qed.

(** C7: when the create (or update) request fails, Create (Update) returns
    its error and [d] is unchanged, whatever [setRepositoryToResourceData]
    does: the write-back is not reached. *)
Theorem failed_write_leaves_data (set : SetRepositoryFn) (c : Client)
    (d : ResourceData) (h : list call) (e : goerror) :
  (forall repo, getRepositoryAptProxyFromResourceData d = Ret repo ->
     (RepositoryCreate c h repo = Some e ->
        run (V1.resourceRepositoryAptProxyCreate set c) d h
        = (Ret (Some e), st d (h ++ [CallRepositoryCreate repo]))) /\
     (RepositoryUpdate c h (rd_id d) repo = Some e ->
        run (V1.resourceRepositoryAptProxyUpdate set c) d h
        = (Ret (Some e), st d (h ++ [CallRepositoryUpdate (rd_id d) repo])))) /\
  (forall repo, getRepositoryFromResourceData d = Ret repo ->
     (RepositoryCreate c h repo = Some e ->
        run (V2.resourceRepositoryAptProxyCreate set c) d h
        = (Ret (Some e), st d (h ++ [CallRepositoryCreate repo]))) /\
     (RepositoryUpdate c h (rd_id d) repo = Some e ->
        run (V2.resourceRepositoryAptProxyUpdate set c) d h
        = (Ret (Some e), st d (h ++ [CallRepositoryUpdate (rd_id d) repo])))).
Proof.
  split; intros repo Hg; split; intros Hw.
  - rewrite (V1_create_run _ _ _ _ _ Hg), Hw; apply write_outcome_error.
  - rewrite (V1_update_run _ _ _ _ _ Hg), Hw; apply write_outcome_error.
  - rewrite (V2_create_run _ _ _ _ _ Hg), Hw; apply write_outcome_error.
  - rewrite (V2_update_run _ _ _ _ _ Hg), Hw; apply write_outcome_error.
Qed.

Lemma failed_write_leaves_data_witness :
  run (V1.resourceRepositoryAptProxyCreate setRepositoryToResourceData client_failing)
      example_rd2 []
  = (Ret (Some refused), st example_rd2 [CallRepositoryCreate example_repo]) /\
  run (V2.resourceRepositoryAptProxyUpdate setRepositoryToResourceData client_failing)
      example_rd2 []
  = (Ret (Some refused), st example_rd2 [CallRepositoryUpdate "apt-proxy" example_repo]).
Proof.
  destruct (failed_write_leaves_data setRepositoryToResourceData client_failing
              example_rd2 [] refused) as (H1 & H2).
  split.
  - apply (proj1 (H1 example_repo (ltac:(vm_compute; reflexivity)))); reflexivity.
  - apply (proj2 (H2 example_repo (ltac:(vm_compute; reflexivity)))); reflexivity.
Defined.

(** C9: when [RepositoryRead] returns no repository and no error, Read sets
    the id to "" and returns nil; the rest of [d] is unchanged. *)
Theorem read_gone_clears_id (set : SetRepositoryFn) (c : Client)
    (d : ResourceData) (h : list call) :
  RepositoryRead c h (rd_id d) = (None, None) ->
  run (V1.resourceRepositoryAptProxyRead set c) d h
  = (Ret None, {| hs_data := {| rd_id := ""; rd_schema := rd_schema d; rd_cfg := rd_cfg d |};
                  hs_trace := h ++ [CallRepositoryRead (rd_id d)] |}) /\
  run (V2.resourceRepositoryAptProxyRead set c) d h
  = (Ret None, {| hs_data := {| rd_id := ""; rd_schema := rd_schema d; rd_cfg := rd_cfg d |};
                  hs_trace := h ++ [CallRepositoryRead (rd_id d)] |}).
Proof.
  intros Hr; rewrite V1_read_run, V2_read_run; unfold read_outcome; rewrite Hr; split; reflexivity.
Qed.

Lemma read_gone_clears_id_witness :
  run (V1.resourceRepositoryAptProxyRead setRepositoryToResourceData client_gone) example_rd2 []
  = (Ret None, {| hs_data := {| rd_id := ""; rd_schema := resourceRepositoryAptProxy2_keys;
                                rd_cfg := example_config_noconn |};
                  hs_trace := [CallRepositoryRead "apt-proxy"] |}).
Proof.
  exact (proj1 (read_gone_clears_id setRepositoryToResourceData client_gone example_rd2 []
                  eq_refl)).
Defined.

(** Marshalling [d] and writing the repository back into [d]. *)
Definition round_trip (d : ResourceData) : option ResourceData :=
  match getRepositoryAptProxyFromResourceData d with
  | Ret r => Some (snd (setRepositoryToResourceData r d))
  | Panic _ => None
  end.

(** For single-block configurations without a [connection] block the round
    trip restores the whole configuration. *)
Lemma round_trip_single_blocks (id : string) (c : Config) :
  single_blocks c = true ->
  option_map rd_cfg (round_trip
    {| rd_id := id; rd_schema := resourceRepositoryAptProxy_keys; rd_cfg := c |}) = Some c.
Proof.
  intros H; unfold round_trip; rewrite (get_single_blocks id c H).
  destruct c as [fmt ty nm on st cl hc nc px rr ap]; unfold single_blocks in H.
  cbn [cf_storage cf_cleanup cf_http_client cf_negative_cache cf_proxy cf_apt] in H.
  repeat rewrite andb_true_iff in H.
  destruct H as [[[[[[[Hst Hcl] Hhc] Hnc] Hpx] Hap] _] Hall].
  destruct st as [|s [|? ?]]; try discriminate Hst;
  destruct cl as [|b [|? ?]]; try discriminate Hcl;
  destruct hc as [|h [|? ?]]; try discriminate Hhc;
  destruct nc as [|n [|? ?]]; try discriminate Hnc;
  destruct px as [|p [|? ?]]; try discriminate Hpx;
  destruct ap as [|a [|? ?]]; try discriminate Hap.
  all: try (destruct h as [hb ha hcn hau];
            cbn [forallb hc_authentication hc_connection] in Hall;
            repeat rewrite andb_true_iff in Hall; destruct Hall as [[[Ha Hae] Hc0] _];
            (destruct hcn; [|discriminate Hc0]);
            (destruct hau as [|u [|? ?]]; [| |discriminate Ha]);
            try (cbn [forallb] in Hae; destruct (auth_empty u) eqn:Eu; [discriminate Hae|])).
  all: unfold setRepositoryToResourceData, apt_proxy_repository, auth_block;
    cbn -[auth_empty]; try rewrite Eu; cbn -[auth_empty];
    try destruct s; try destruct b; try destruct n; try destruct p; try destruct a;
    try destruct u; reflexivity.
Qed.

Definition example_config_two_apt : Config := {|
  cf_format := "apt"; cf_type := "proxy";
  cf_name := "apt-proxy"; cf_online := true;
  cf_storage := cf_storage example_config_noconn;
  cf_cleanup := cf_cleanup example_config_noconn;
  cf_http_client := cf_http_client example_config_noconn;
  cf_negative_cache := cf_negative_cache example_config_noconn;
  cf_proxy := cf_proxy example_config_noconn;
  cf_routing_rule := "string";
  cf_apt := [{| ab_distribution := "bionic"; ab_flat := false |};
             {| ab_distribution := "focal"; ab_flat := true |}] |}.

(** C5 (code_bug): the [apt] block list has no [MaxItems: 1]; with two
    [apt] blocks the marshalling keeps the first one and writing the
    repository back leaves one [apt] block. *)
Lemma round_trip_two_apt_blocks :
  rd_get (example_rd example_config_two_apt) "apt"
  = GList [enc_apt {| ab_distribution := "bionic"; ab_flat := false |};
           enc_apt {| ab_distribution := "focal"; ab_flat := true |}] /\
  option_map (fun d' => rd_get d' "apt") (round_trip (example_rd example_config_two_apt))
  = Some (GList [enc_apt {| ab_distribution := "bionic"; ab_flat := false |}]).
Proof. split; vm_compute; reflexivity. Qed.

(** With the [format] and [type] of the second schema at "apt" and "proxy",
    the shared marshalling function agrees with the apt proxy one. *)
Lemma getRepositoryFromResourceData_apt_proxy (d : ResourceData) :
  rd_schema d = resourceRepositoryAptProxy2_keys ->
  cf_format (rd_cfg d) = "apt" -> cf_type (rd_cfg d) = "proxy" ->
  getRepositoryFromResourceData d = getRepositoryAptProxyFromResourceData d.
Proof.
  intros Hs Hf Ht.
  unfold getRepositoryFromResourceData, getRepositoryAptProxyFromResourceData.
  assert (Ef : rd_get d "format" = GString "apt")
    by (unfold rd_get; rewrite Hs; cbn; rewrite Hf; reflexivity).
  assert (Et : rd_get d "type" = GString "proxy")
    by (unfold rd_get; rewrite Hs; cbn; rewrite Ht; reflexivity).
  rewrite Ef, Et; simpl.
  destruct (as_string (rd_get d "name")); simpl; [|reflexivity].
  destruct (as_bool (rd_get d "online")); reflexivity.
Qed.

Lemma create_panic_run set c d h msg :
  getRepositoryAptProxyFromResourceData d = Panic msg ->
  run (V1.resourceRepositoryAptProxyCreate set c) d h = (Panic msg, st d h) /\
  (getRepositoryFromResourceData d = Panic msg ->
   run (V2.resourceRepositoryAptProxyCreate set c) d h = (Panic msg, st d h)).
Proof.
  intros H1; split; [|intros H2];
  unfold run, V1.resourceRepositoryAptProxyCreate, V2.resourceRepositoryAptProxyCreate,
    bind, getData, lift; simpl; [rewrite H1|rewrite H2]; reflexivity.
Qed.

Definition example_rd_group : ResourceData :=
  {| rd_id := "apt-proxy"; rd_schema := resourceRepositoryAptProxy2_keys;
     rd_cfg := {| cf_format := "apt"; cf_type := "group";
                  cf_name := "apt-proxy"; cf_online := true;
                  cf_storage := cf_storage example_config_noconn;
                  cf_cleanup := cf_cleanup example_config_noconn;
                  cf_http_client := cf_http_client example_config_noconn;
                  cf_negative_cache := cf_negative_cache example_config_noconn;
                  cf_proxy := cf_proxy example_config_noconn;
                  cf_routing_rule := "string";
                  cf_apt := cf_apt example_config_noconn |} |}.

(** C10 (counterexample): with [type = "group"] (a value the second schema
    accepts) the two Create handlers send different repositories. *)
Lemma create_variants_differ_on_type :
  match hs_trace (snd (run (V1.resourceRepositoryAptProxyCreate setRepositoryToResourceData
                              (client_ok example_repo)) example_rd_group [])),
        hs_trace (snd (run (V2.resourceRepositoryAptProxyCreate setRepositoryToResourceData
                              (client_ok example_repo)) example_rd_group []))
  with
  | CallRepositoryCreate r1 :: _, CallRepositoryCreate r2 :: _ =>
      Type_ r1 = "proxy" /\ Type_ r2 = "group"
  | _, _ => False
  end.
Proof. vm_compute; split; reflexivity. Qed.

(** C10 (amended): on resource data of the second schema whose [format]
    and [type] are "apt" and "proxy" (their defaults), the two Create
    handlers issue the same requests with the same repository, return the
    same result and leave the resource data in the same state, whatever
    the client and [setRepositoryToResourceData]. *)
Theorem create_variants_agree (set : SetRepositoryFn) (c : Client)
    (d : ResourceData) (h : list call) :
  rd_schema d = resourceRepositoryAptProxy2_keys ->
  cf_format (rd_cfg d) = "apt" -> cf_type (rd_cfg d) = "proxy" ->
  run (V1.resourceRepositoryAptProxyCreate set c) d h
  = run (V2.resourceRepositoryAptProxyCreate set c) d h.
Proof.
  intros Hs Hf Ht.
  pose proof (getRepositoryFromResourceData_apt_proxy d Hs Hf Ht) as Eg.
  destruct (getRepositoryAptProxyFromResourceData d) as [repo|msg] eqn:Hg.
  - rewrite (V1_create_run _ _ _ _ _ Hg), (V2_create_run _ _ _ _ _ Eg); reflexivity.
  - destruct (create_panic_run set c d h msg Hg) as [H1 H2].
    rewrite H1, (H2 Eg); reflexivity.
Qed.

Lemma create_variants_agree_witness :
  run (V1.resourceRepositoryAptProxyCreate setRepositoryToResourceData
         (client_ok example_repo)) example_rd2 []
  = run (V2.resourceRepositoryAptProxyCreate setRepositoryToResourceData
           (client_ok example_repo)) example_rd2 [].
Proof. apply create_variants_agree; reflexivity. Defined.

(** ** Further properties of the source *)


Lemma update_panic_run set c d h msg :
  (getRepositoryAptProxyFromResourceData d = Panic msg ->
   run (V1.resourceRepositoryAptProxyUpdate set c) d h = (Panic msg, st d h)) /\
  (getRepositoryFromResourceData d = Panic msg ->
   run (V2.resourceRepositoryAptProxyUpdate set c) d h = (Panic msg, st d h)).
Proof.
  split; intros H;
  unfold run, V1.resourceRepositoryAptProxyUpdate, V2.resourceRepositoryAptProxyUpdate,
    bind, getId, getData, lift; simpl; rewrite H; reflexivity.
Qed.

(** X1: on data of the first schema, [getRepositoryAptProxyFromResourceData]
    panics when the first [cleanup] block holds no policy names (the SDK
    hands it out as nil, the code asserts a map), and otherwise when the
    first [http_client] block has a [connection] block; in every other case
    it returns the repository built from the first block of each block list,
    with the authentication block only when there is exactly one and it
    holds a value, and with no connection. *)
Theorem getRepositoryAptProxy_outcome (id : string) (c : Config) :
  getRepositoryAptProxyFromResourceData
    {| rd_id := id; rd_schema := resourceRepositoryAptProxy_keys; rd_cfg := c |}
  = if empty_cleanup c then Panic "interface conversion: not map[string]interface {}"
    else if has_connection c then Panic "interface conversion: not *int"
    else Ret (apt_proxy_repository c).
Proof. apply get_schema1_cases. Qed.

(** X2: when the client's read fails, Read returns the error and leaves
    the resource data as it was, after the single read. *)
Theorem read_error_keeps_data (set : SetRepositoryFn) (c : Client)
    (d : ResourceData) (h : list call) (e : goerror) :
  snd (RepositoryRead c h (rd_id d)) = Some e ->
  run (V1.resourceRepositoryAptProxyRead set c) d h
  = (Ret (Some e), st d (h ++ [CallRepositoryRead (rd_id d)])) /\
  run (V2.resourceRepositoryAptProxyRead set c) d h
  = (Ret (Some e), st d (h ++ [CallRepositoryRead (rd_id d)])).
Proof.
  intros He; rewrite V1_read_run, V2_read_run; unfold read_outcome.
  destruct (RepositoryRead c h (rd_id d)) as [[r|] e']; simpl in He; subst e';
  split; reflexivity.
Qed.

Lemma read_error_keeps_data_witness :
  run (V1.resourceRepositoryAptProxyRead setRepositoryToResourceData client_failing)
      example_rd2 []
  = (Ret (Some refused), st example_rd2 [CallRepositoryRead "apt-proxy"]).
Proof.
  exact (proj1 (read_error_keeps_data setRepositoryToResourceData client_failing
                  example_rd2 [] refused eq_refl)).
Defined.

(** X3: Create is not atomic: when the create request succeeds and the
    write-back returns nil but the follow-up read fails, Create returns the
    read's error while the resource data already holds what the write-back
    wrote. *)
Theorem create_read_failure_keeps_write_back (set : SetRepositoryFn) (c : Client)
    (d d' : ResourceData) (h : list call) (e : goerror) :
  (forall repo, getRepositoryAptProxyFromResourceData d = Ret repo ->
     RepositoryCreate c h repo = None -> set repo d = (None, d') ->
     snd (RepositoryRead c (h ++ [CallRepositoryCreate repo]) (rd_id d')) = Some e ->
     run (V1.resourceRepositoryAptProxyCreate set c) d h
     = (Ret (Some e), st d' (h ++ [CallRepositoryCreate repo; CallRepositoryRead (rd_id d')]))) /\
  (forall repo, getRepositoryFromResourceData d = Ret repo ->
     RepositoryCreate c h repo = None -> set repo d = (None, d') ->
     snd (RepositoryRead c (h ++ [CallRepositoryCreate repo]) (rd_id d')) = Some e ->
     run (V2.resourceRepositoryAptProxyCreate set c) d h
     = (Ret (Some e), st d' (h ++ [CallRepositoryCreate repo; CallRepositoryRead (rd_id d')]))).
Proof.
  split; intros repo Hg Hc Hs Hr;
  [rewrite (V1_create_run _ _ _ _ _ Hg) | rewrite (V2_create_run _ _ _ _ _ Hg)];
  unfold write_outcome; rewrite Hc, Hs; unfold read_outcome;
  destruct (RepositoryRead c (h ++ [CallRepositoryCreate repo]) (rd_id d')) as [[r|] e'];
  simpl in Hr; subst e'; rewrite <- app_assoc; reflexivity.
Qed.

Lemma create_read_failure_keeps_write_back_witness :
  run (V1.resourceRepositoryAptProxyCreate setRepositoryToResourceData client_read_fails)
      example_rd2 []
  = (Ret (Some refused),
     st (snd (setRepositoryToResourceData example_repo example_rd2))
        [CallRepositoryCreate example_repo; CallRepositoryRead "apt-proxy"]).
Proof.
  apply (proj1 (create_read_failure_keeps_write_back setRepositoryToResourceData
                  client_read_fails example_rd2
                  (snd (setRepositoryToResourceData example_repo example_rd2)) [] refused)
           example_repo);
  vm_compute; reflexivity.
Defined.

(** X4: when the read returns no error, Exists returns false exactly when
    the read returned no repository and Read clears the id and returns nil,
    and true exactly when the read returned a repository [r] and Read
    writes [r] back into the resource data. *)
Theorem exists_agrees_with_read (set : SetRepositoryFn) (c : Client)
    (d : ResourceData) (h : list call) :
  snd (RepositoryRead c h (rd_id d)) = None ->
  (fst (run (V1.resourceRepositoryAptProxyExists c) d h) = Ret (false, None) <->
   fst (RepositoryRead c h (rd_id d)) = None /\
   run (V1.resourceRepositoryAptProxyRead set c) d h
   = (Ret None, st {| rd_id := ""; rd_schema := rd_schema d; rd_cfg := rd_cfg d |}
                   (h ++ [CallRepositoryRead (rd_id d)]))) /\
  (fst (run (V1.resourceRepositoryAptProxyExists c) d h) = Ret (true, None) <->
   exists r, fst (RepositoryRead c h (rd_id d)) = Some r /\
   run (V1.resourceRepositoryAptProxyRead set c) d h
   = (Ret (fst (set r d)), st (snd (set r d)) (h ++ [CallRepositoryRead (rd_id d)]))).
Proof.
  intros He; rewrite V1_exists_run, V1_read_run; unfold exists_outcome, read_outcome.
  destruct (RepositoryRead c h (rd_id d)) as [[r|] e']; cbn [snd] in He; subst e';
  cbn [fst snd isSome].
  - split; split.
    + intros E; discriminate E.
    + intros [E _]; discriminate E.
    + intros _; exists r; split; [reflexivity|]; destruct (set r d); reflexivity.
    + intros _; reflexivity.
  - split; split.
    + intros _; split; reflexivity.
    + intros _; reflexivity.
    + intros E; discriminate E.
    + intros (r & E & _); discriminate E.
Qed.

Lemma exists_agrees_with_read_witness :
  (fst (RepositoryRead client_gone [] "apt-proxy") = None /\
   run (V1.resourceRepositoryAptProxyRead setRepositoryToResourceData client_gone) example_rd2 []
   = (Ret None, st {| rd_id := ""; rd_schema := resourceRepositoryAptProxy2_keys;
                      rd_cfg := example_config_noconn |} [CallRepositoryRead "apt-proxy"])) /\
  (exists r, fst (RepositoryRead (client_ok example_repo) [] "apt-proxy") = Some r /\
   run (V1.resourceRepositoryAptProxyRead setRepositoryToResourceData (client_ok example_repo))
       example_rd2 []
   = (Ret (fst (setRepositoryToResourceData r example_rd2)),
      st (snd (setRepositoryToResourceData r example_rd2)) [CallRepositoryRead "apt-proxy"])).
Proof.
  split.
  - apply (proj1 (proj1 (exists_agrees_with_read setRepositoryToResourceData client_gone
                           example_rd2 [] eq_refl))); reflexivity.
  - apply (proj1 (proj2 (exists_agrees_with_read setRepositoryToResourceData
                           (client_ok example_repo) example_rd2 [] eq_refl))); reflexivity.
Defined.

(** X5: when the marshalling returns, Update sends its request to the
    repository named by the current id [d.Id()], carrying the name
    configured now: a renamed resource is updated under its old name. *)
Theorem update_targets_current_id (set : SetRepositoryFn) (cl : Client)
    (id : string) (c : Config) (h : list call) :
  empty_cleanup c = false -> has_connection c = false ->
  exists r rest,
    hs_trace (snd (run (V1.resourceRepositoryAptProxyUpdate set cl)
                     {| rd_id := id; rd_schema := resourceRepositoryAptProxy_keys;
                        rd_cfg := c |} h))
    = h ++ CallRepositoryUpdate id r :: rest /\ Name r = cf_name c.
Proof.
  intros Hcl Hcn.
  assert (Hg := get_schema1_cases id c); rewrite Hcl, Hcn in Hg.
  exists (apt_proxy_repository c).
  rewrite (V1_update_run _ _ _ _ _ Hg), write_outcome_trace; cbn [rd_id];
  unfold write_requests.
  destruct (RepositoryUpdate cl h id (apt_proxy_repository c));
  [|destruct (fst (set (apt_proxy_repository c)
                     {| rd_id := id; rd_schema := resourceRepositoryAptProxy_keys;
                        rd_cfg := c |}))];
  eexists; split; reflexivity.
Qed.

Lemma update_targets_current_id_witness :
  exists r rest,
    hs_trace (snd (run (V1.resourceRepositoryAptProxyUpdate setRepositoryToResourceData
                          (client_ok example_repo)) example_rd_renamed []))
    = CallRepositoryUpdate "old-apt-proxy" r :: rest /\ Name r = "apt-proxy".
Proof.
  exact (update_targets_current_id setRepositoryToResourceData (client_ok example_repo)
           "old-apt-proxy" example_config_noconn [] eq_refl eq_refl).
Defined.

(** X6: when the marshalling panics, Create and Update send no request
    and leave the resource data unchanged. *)
Theorem marshalling_panic_sends_nothing (set : SetRepositoryFn) (c : Client)
    (d : ResourceData) (h : list call) :
  (forall msg, getRepositoryAptProxyFromResourceData d = Panic msg ->
     run (V1.resourceRepositoryAptProxyCreate set c) d h = (Panic msg, st d h) /\
     run (V1.resourceRepositoryAptProxyUpdate set c) d h = (Panic msg, st d h)) /\
  (forall msg, getRepositoryFromResourceData d = Panic msg ->
     run (V2.resourceRepositoryAptProxyCreate set c) d h = (Panic msg, st d h) /\
     run (V2.resourceRepositoryAptProxyUpdate set c) d h = (Panic msg, st d h)).
Proof.
  split; intros msg Hg; split.
  - exact (proj1 (create_panic_run set c d h msg Hg)).
  - exact (proj1 (update_panic_run set c d h msg) Hg).
  - unfold run, V2.resourceRepositoryAptProxyCreate, bind, getData, lift; simpl;
    rewrite Hg; reflexivity.
  - exact (proj2 (update_panic_run set c d h msg) Hg).
Qed.

Lemma marshalling_panic_sends_nothing_witness :
  run (V1.resourceRepositoryAptProxyCreate setRepositoryToResourceData
         (client_ok example_repo)) example_rd2_conn []
  = (Panic "interface conversion: not *int", st example_rd2_conn []) /\
  run (V2.resourceRepositoryAptProxyUpdate setRepositoryToResourceData
         (client_ok example_repo)) example_rd2_conn []
  = (Panic "interface conversion: not *int", st example_rd2_conn []).
Proof.
  destruct (marshalling_panic_sends_nothing setRepositoryToResourceData (client_ok example_repo)
              example_rd2_conn []) as [H1 H2].
  split.
  - apply (proj1 (H1 "interface conversion: not *int" (ltac:(vm_compute; reflexivity)))).
  - apply (proj2 (H2 "interface conversion: not *int" (ltac:(vm_compute; reflexivity)))).
Defined.
